(** * The OpenComponent generation pipeline
      (scripts/generate-oc-component-in-daytona.ts)

    A shallow embedding of the script that turns a prompt into a published
    OpenComponent inside a Daytona sandbox, and the properties of it that
    the specification states.

    - JavaScript strings are sequences of UTF-16 code units: [list N].
    - The script talks to the Daytona provider, to the sandbox and to the
      console. These interactions are the nodes of a finite interaction
      tree ([Prog]); an environment answers them ([Handler]), and a run
      produces an outcome together with the trace of what was asked and
      what was answered.
    - [String.prototype.toLowerCase] is the host's Unicode case mapping; it
      is a parameter of the development ([asciiToLowerCase] is what it does
      on ASCII text). *)

From Stdlib Require Import List NArith ZArith Bool Lia String Ascii.
Import ListNotations.

Set Implicit Arguments.

(** ** JavaScript strings *)

Definition jsstring := list N.

(** The code units of an ASCII literal of the source. *)
Definition lit (s : string) : jsstring :=
  List.map N_of_ascii (list_ascii_of_string s).

Arguments lit s : simpl never.

(** [!s] for a string: the empty string is falsy. *)
Definition falsy (s : jsstring) : bool :=
  match s with
  | [] => true
  | _ :: _ => false
  end.

(** [!s] for a value that may be [undefined]. *)
Definition falsy_opt (s : option jsstring) : bool :=
  match s with
  | None => true
  | Some s => falsy s
  end.

(** [a || b] on strings. *)
Definition or_else (a b : jsstring) : jsstring :=
  if falsy a then b else a.

Fixpoint jsstring_eqb (a b : jsstring) : bool :=
  match a, b with
  | [], [] => true
  | x :: a', y :: b' => N.eqb x y && jsstring_eqb a' b'
  | _, _ => false
  end.

Fixpoint dropWhile {A} (p : A -> bool) (l : list A) : list A :=
  match l with
  | [] => []
  | x :: t => if p x then dropWhile p t else l
  end.

Definition dropWhileEnd {A} (p : A -> bool) (l : list A) : list A :=
  rev (dropWhile p (rev l)).

(** [Array.prototype.join(" ")]. *)
Fixpoint join_space (l : list jsstring) : jsstring :=
  match l with
  | [] => []
  | [a] => a
  | a :: t => a ++ 32%N :: join_space t
  end.

(** What [toLowerCase] does to a string of ASCII characters. *)
Definition asciiToLowerCase (s : jsstring) : jsstring :=
  List.map (fun c => if (65 <=? c)%N && (c <=? 90)%N then (c + 32)%N else c) s.

(** ** The component name (lines 80-88) *)

Module Slug.

Local Open Scope N_scope.

Definition hyphen : N := 45.

Definition isHyphen (c : N) : bool := c =? hyphen.

(** [a-z0-9] *)
Definition isLowerAlnum (c : N) : bool :=
  ((97 <=? c) && (c <=? 122)) || ((48 <=? c) && (c <=? 57)).

(** [\s] of an ECMAScript regular expression: WhiteSpace and
    LineTerminator code points. *)
Definition isWhiteSpace (c : N) : bool :=
  ((9 <=? c) && (c <=? 13)) || (c =? 32) || (c =? 160) || (c =? 5760)
  || ((8192 <=? c) && (c <=? 8202)) || (c =? 8232) || (c =? 8233)
  || (c =? 8239) || (c =? 8287) || (c =? 12288) || (c =? 65279).

(** [.replace(/[^a-z0-9\s-]/g, '')] *)
Definition removeSpecialChars (s : jsstring) : jsstring :=
  filter (fun c => isLowerAlnum c || isWhiteSpace c || isHyphen c) s.

(** [.replace(/\s+/g, '-')]: every maximal run of white space becomes one
    hyphen. [inRun] tells that the previous code unit was white space. *)
Fixpoint spacesToHyphens_from (inRun : bool) (s : jsstring) : jsstring :=
  match s with
  | [] => []
  | c :: t =>
      if isWhiteSpace c
      then if inRun then spacesToHyphens_from true t
           else hyphen :: spacesToHyphens_from true t
      else c :: spacesToHyphens_from false t
  end.

Definition spacesToHyphens (s : jsstring) : jsstring :=
  spacesToHyphens_from false s.

(** [.substring(0, 30)] *)
Definition limitLength (s : jsstring) : jsstring := firstn 30 s.

(** [.replace(/^-+|-+$/g, '')]: the leading run of hyphens and the trailing
    run of hyphens are removed. *)
Definition trimHyphens (s : jsstring) : jsstring :=
  dropWhileEnd isHyphen (dropWhile isHyphen s).

Definition fallbackName : jsstring := lit "generated-component".

Section WithCaseMapping.

Variable toLowerCase : jsstring -> jsstring.

(** The chain of string operations applied to a given prompt. *)
Definition derive (prompt : jsstring) : jsstring :=
  trimHyphens (limitLength (spacesToHyphens (removeSpecialChars (toLowerCase prompt)))).

(** [const defaultComponentName = prompt ? ... : "generated-component"] *)
Definition defaultComponentName (prompt : option jsstring) : jsstring :=
  match prompt with
  | Some p => if falsy p then fallbackName else derive p
  | None => fallbackName
  end.

(** [componentName = defaultComponentName || "generated-component"] *)
Definition componentName (prompt : option jsstring) : jsstring :=
  or_else (defaultComponentName prompt) fallbackName.

End WithCaseMapping.

(** The characters a component name is made of: [a-z0-9-]. *)
Definition isSlugChar (c : N) : bool := isLowerAlnum c || isHyphen c.

(** An upper-case ASCII letter. *)
Definition isUpper (c : N) : bool := (65 <=? c) && (c <=? 90).

End Slug.

(** ** The command line (lines 391-411) *)

Module Cli.

Local Open Scope N_scope.

(** [[0-9a-f]] under the [i] flag: the ASCII hexadecimal digits of either
    case (a character outside ASCII never folds onto an ASCII one in a
    regular expression without the [u] flag). *)
Definition isHexDigit (c : N) : bool :=
  ((48 <=? c) && (c <=? 57)) || ((97 <=? c) && (c <=? 102))
  || ((65 <=? c) && (c <=? 70)).

(** The pieces of the pattern: [[0-9a-f]{n}] and the literal [-]. *)
Inductive Atom : Type :=
| HexDigits (n : nat)
| Dash.

(** [/^[0-9a-f]{8}-[0-9a-f]{4}-[0-9a-f]{4}-[0-9a-f]{4}-[0-9a-f]{12}$/i] *)
Definition uuidRegex : list Atom :=
  [HexDigits 8; Dash; HexDigits 4; Dash; HexDigits 4; Dash; HexDigits 4;
   Dash; HexDigits 12].

(** Consume exactly [n] hexadecimal digits; the rest of the input. *)
Fixpoint matchHex (n : nat) (s : jsstring) : option jsstring :=
  match n with
  | O => Some s
  | S n' =>
      match s with
      | c :: t => if isHexDigit c then matchHex n' t else None
      | [] => None
      end
  end.

Definition matchAtom (a : Atom) (s : jsstring) : option jsstring :=
  match a with
  | HexDigits n => matchHex n s
  | Dash =>
      match s with
      | c :: t => if c =? 45 then Some t else None
      | [] => None
      end
  end.

Fixpoint matchAtoms (p : list Atom) (s : jsstring) : option jsstring :=
  match p with
  | [] => Some s
  | a :: p' =>
      match matchAtom a s with
      | Some rest => matchAtoms p' rest
      | None => None
      end
  end.

(** [uuidRegex.test(s)]: the pattern is anchored at both ends. *)
Definition uuidRegex_test (s : jsstring) : bool :=
  match matchAtoms uuidRegex s with
  | Some [] => true
  | _ => false
  end.

Definition defaultPrompt : jsstring :=
  lit "Create a beautiful, modern button component with multiple variants (primary, secondary, outline) and different sizes. Include hover effects and proper accessibility features.".

(** The two variables [main] fills from [process.argv.slice(2)]. *)
Record Parsed : Type := {
  sandboxId : option jsstring;
  prompt : option jsstring
}.

(** Lines 397-407. *)
Definition parseArguments (args : list jsstring) : Parsed :=
  match args with
  | [] => {| sandboxId := None; prompt := None |}
  | first :: others =>
      if uuidRegex_test first
      then {| sandboxId := Some first; prompt := Some (join_space others) |}
      else {| sandboxId := None; prompt := Some (join_space args) |}
  end.

(** Lines 409-411: [if (!prompt) prompt = "Create a beautiful, ..."]. *)
Definition promptOrDefault (p : option jsstring) : jsstring :=
  match p with
  | Some s => if falsy s then defaultPrompt else s
  | None => defaultPrompt
  end.

(** The configuration [main] hands to the pipeline. *)
Definition configuration (args : list jsstring) : option jsstring * jsstring :=
  let parsed := parseArguments args in
  (sandboxId parsed, promptOrDefault (prompt parsed)).

(** The shape the pattern describes, position by position: 36 code units,
    a hyphen at positions 8, 13, 18 and 23, a hexadecimal digit elsewhere. *)
Definition isDashPosition (i : nat) : bool :=
  Nat.eqb i 8 || Nat.eqb i 13 || Nat.eqb i 18 || Nat.eqb i 23.

Definition UuidShaped (s : jsstring) : Prop :=
  List.length s = 36%nat /\
  forall i c, nth_error s i = Some c ->
    if isDashPosition i then c = 45 else isHexDigit c = true.

(** An argument of the UUID shape, with a digit in upper case. *)
Definition sampleUuid : jsstring := lit "123e4567-e89b-12d3-A456-426614174000".

End Cli.

(** ** The pipeline's interactions *)

Module Pipeline.

(** A thrown [Error], identified by its message. *)
Definition Error := jsstring.

(** A sandbox handle; the script reads its [id] only. *)
Record Sandbox : Type := { id : jsstring }.

(** What [sandbox.process.executeCommand] resolves to. *)
Record ExecuteResponse : Type := {
  exitCode : Z;
  result : jsstring
}.

(** The shell commands the script sends to the sandbox, with the values it
    splices into them. *)
Inductive Command : Type :=
| NpmInstallOc
    (* npm install -g oc *)
| NpmInstallClaudeCode
    (* npm install @anthropic-ai/claude-code@latest *)
| OcInit (componentName : jsstring)
    (* oc init ${componentName} *)
| WriteGenerationScript (prompt : option jsstring) (componentName : jsstring)
    (* cat > generate-component.js << 'SCRIPT_EOF' ${generationScript} SCRIPT_EOF *)
| NodeGenerateComponent
    (* node generate-component.js *)
| ListAndShowPackage
    (* ls -la && echo '---' && cat package.json | head -10 *)
| OcBuild
    (* oc build . *)
| OcBuildVerbose
    (* oc build . --verbose *)
| OcPublish (registry : jsstring)
    (* oc publish . ${REGISTRY_URL} *)
| CurlRegistry (registry : jsstring)
    (* curl -f ${REGISTRY_URL} || echo 'Registry not accessible' *)
| CurlComponent (componentUrl : jsstring)
    (* curl -f ${componentUrl} -H Accept: application/json || echo 'Component not accessible' *).

(** The [env] argument of [executeCommand]: names and the values read from
    the process environment, which may be [undefined]. *)
Definition EnvVars := list (string * option jsstring).

(** The operations of the Daytona SDK. [daytona_delete] and [daytona_stop]
    are the provider's teardown operations; line 355 of the script points
    the user to a separate script for them. *)
Inductive Op : Type :=
| daytona_list
| daytona_create (public : bool) (image : jsstring)
| daytona_delete (sandbox : Sandbox)
| daytona_stop (sandbox : Sandbox)
| getUserRootDir (sandbox : Sandbox)
| executeCommand (sandbox : Sandbox) (command : Command) (cwd : jsstring)
    (env : option EnvVars) (timeout : option N).

(** What each operation resolves to when its promise is fulfilled. *)
Definition Resp (o : Op) : Type :=
  match o with
  | daytona_list => list Sandbox
  | daytona_create _ _ => Sandbox
  | daytona_delete _ => unit
  | daytona_stop _ => unit
  | getUserRootDir _ => jsstring
  | executeCommand _ _ _ _ _ => ExecuteResponse
  end.

Inductive Stream : Type := stdout | stderr.

(** A line written by [console.log] or [console.error]: its fixed text and
    the run-time value printed with it (empty when there is none). *)
Record LogLine : Type := {
  stream : Stream;
  text : string;
  value : jsstring
}.

(** A program: what it returns, or the exit code it ends the process with,
    or a line it prints, or an operation it awaits. The continuation of an
    awaited operation receives the value the promise is fulfilled with, or
    the error it is rejected with. *)
Inductive Prog (A : Type) : Type :=
| Ret (a : A)
| Exit (code : Z)
| Print (line : LogLine) (k : Prog A)
| Await (o : Op) (k : Error + Resp o -> Prog A).

Arguments Exit {A} code.

Fixpoint bindP {A B} (p : Prog A) (f : A -> Prog B) : Prog B :=
  match p with
  | Ret a => f a
  | Exit c => Exit c
  | Print l k => Print l (bindP k f)
  | Await o k => Await o (fun r => bindP (k r) f)
  end.

(** The lines of the SIGINT handler (lines 428-431). *)
Definition sigintLine : LogLine :=
  {| stream := stdout; text := "Exiting... The sandbox will continue running.";
     value := [] |}.

(** A run that receives SIGINT after [n] steps: the handler prints its
    line and ends the process with code 0; the pending work never resumes. *)
Fixpoint interrupted {A} (n : nat) (p : Prog A) : Prog A :=
  match n with
  | O => Print sigintLine (Exit 0)
  | S n' =>
      match p with
      | Print l k => Print l (interrupted n' k)
      | Await o k => Await o (fun r => interrupted n' (k r))
      | _ => p
      end
  end.

(** *** Running a program against an environment *)

Inductive Event : Type :=
| Printed (line : LogLine)
| Called (o : Op) (r : Error + Resp o).

Inductive Outcome (A : Type) : Type :=
| Returned (a : A)
| Exited (code : Z).

Arguments Exited {A} code.

Section Run.

Variable World : Type.

(** The environment: how the provider and the sandbox answer an operation
    in a given state of the world. *)
Definition Handler := forall o : Op, World -> (Error + Resp o) * World.

Variable handle : Handler.

Fixpoint run {A} (p : Prog A) (w : World) : Outcome A * list Event * World :=
  match p with
  | Ret a => (Returned a, [], w)
  | Exit c => (Exited c, [], w)
  | Print l k =>
      let '(out, tr, w') := run k w in (out, Printed l :: tr, w')
  | Await o k =>
      let (r, w1) := handle o w in
      let '(out, tr, w2) := run (k r) w1 in (out, Called o r :: tr, w2)
  end.

Definition outcome {A} (p : Prog A) (w : World) : Outcome A := fst (fst (run p w)).
Definition trace {A} (p : Prog A) (w : World) : list Event := snd (fst (run p w)).

End Run.

(** *** Reading a trace *)

(** One call of [executeCommand] and its answer. *)
Record Execution : Type := {
  x_sandbox : Sandbox;
  x_command : Command;
  x_cwd : jsstring;
  x_env : option EnvVars;
  x_timeout : option N;
  x_response : Error + ExecuteResponse
}.

Definition execution_of (ev : Event) : option Execution :=
  match ev with
  | Called o r =>
      match o return Error + Resp o -> option Execution with
      | executeCommand sb c cwd env t =>
          fun r => Some {| x_sandbox := sb; x_command := c; x_cwd := cwd;
                           x_env := env; x_timeout := t; x_response := r |}
      | _ => fun _ => None
      end r
  | Printed _ => None
  end.

Fixpoint executions (tr : list Event) : list Execution :=
  match tr with
  | [] => []
  | ev :: tr' =>
      match execution_of ev with
      | Some x => x :: executions tr'
      | None => executions tr'
      end
  end.

(** The operations called, in order, without their answers. *)
Fixpoint calls (tr : list Event) : list Op :=
  match tr with
  | [] => []
  | Printed _ :: tr' => calls tr'
  | Called o _ :: tr' => o :: calls tr'
  end.

Fixpoint printed (tr : list Event) : list LogLine :=
  match tr with
  | [] => []
  | Printed l :: tr' => l :: printed tr'
  | Called _ _ :: tr' => printed tr'
  end.

Definition isTeardown (o : Op) : bool :=
  match o with
  | daytona_delete _ | daytona_stop _ => true
  | _ => false
  end.

Definition isInstall (c : Command) : bool :=
  match c with
  | NpmInstallOc | NpmInstallClaudeCode => true
  | _ => false
  end.

Definition isCliInstall (c : Command) : bool :=
  match c with
  | NpmInstallOc => true
  | _ => false
  end.

Definition isSdkInstall (c : Command) : bool :=
  match c with
  | NpmInstallClaudeCode => true
  | _ => false
  end.

Definition isBuild (c : Command) : bool :=
  match c with
  | OcBuild | OcBuildVerbose => true
  | _ => false
  end.

Definition isInit (c : Command) : bool :=
  match c with
  | OcInit _ => true
  | _ => false
  end.

Definition isGenerate (c : Command) : bool :=
  match c with
  | NodeGenerateComponent => true
  | _ => false
  end.

Definition isListing (c : Command) : bool :=
  match c with
  | ListAndShowPackage => true
  | _ => false
  end.

Definition isPublish (c : Command) : bool :=
  match c with
  | OcPublish _ => true
  | _ => false
  end.

Definition isRegistryProbe (c : Command) : bool :=
  match c with
  | CurlRegistry _ => true
  | _ => false
  end.

(** The command was sent. *)
Definition issued (p : Command -> bool) (tr : list Event) : bool :=
  existsb (fun x => p (x_command x)) (executions tr).

(** The command was sent and came back with exit code 0. *)
Definition succeeded (p : Command -> bool) (tr : list Event) : bool :=
  existsb (fun x => p (x_command x) &&
                    match x_response x with
                    | inr r => Z.eqb (exitCode r) 0
                    | inl _ => false
                    end) (executions tr).

(** The command was sent and came back with a non-zero exit code. *)
Definition exitedNonZero (p : Command -> bool) (tr : list Event) : bool :=
  existsb (fun x => p (x_command x) &&
                    match x_response x with
                    | inr r => negb (Z.eqb (exitCode r) 0)
                    | inl _ => false
                    end) (executions tr).

(** The command was sent and came back, whatever its exit code. *)
Definition answered (p : Command -> bool) (tr : list Event) : bool :=
  existsb (fun x => p (x_command x) &&
                    match x_response x with
                    | inr _ => true
                    | inl _ => false
                    end) (executions tr).


(** *** The body of an async function with a try/catch

    [let sandbox; let sandboxId = sandboxIdArg; let componentName = ""] are
    declared before the [try], so the [catch] block sees the values they
    had when the error was thrown: the state survives a throw. *)

Record Locals : Type := {
  var_sandbox : option Sandbox;
  var_sandboxId : option jsstring;
  var_componentName : jsstring
}.

Definition M (A : Type) : Type := Locals -> Prog ((Error + A) * Locals).

Definition ret {A} (a : A) : M A := fun l => Ret (inr a, l).

Definition throw {A} (e : Error) : M A := fun l => Ret (inl e, l).

Definition bind {A B} (m : M A) (f : A -> M B) : M B :=
  fun l => bindP (m l) (fun rl =>
    match fst rl with
    | inl e => Ret (inl e, snd rl)
    | inr a => f a (snd rl)
    end).

(** [await op]: a rejected promise throws. *)
Definition await (o : Op) : M (Resp o) :=
  fun l => Await o (fun r => Ret (r, l)).

Definition console_log (t : string) (v : jsstring) : M unit :=
  fun l => Print {| stream := stdout; text := t; value := v |} (Ret (inr tt, l)).

Definition console_error (t : string) (v : jsstring) : M unit :=
  fun l => Print {| stream := stderr; text := t; value := v |} (Ret (inr tt, l)).

(** [process.exit(code)] *)
Definition process_exit {A} (code : Z) : M A := fun _ => Exit code.

Definition get : M Locals := fun l => Ret (inr l, l).

Definition set_sandbox (s : option Sandbox) : M unit :=
  fun l => Ret (inr tt, {| var_sandbox := s; var_sandboxId := var_sandboxId l;
                           var_componentName := var_componentName l |}).

Definition set_sandboxId (s : option jsstring) : M unit :=
  fun l => Ret (inr tt, {| var_sandbox := var_sandbox l; var_sandboxId := s;
                           var_componentName := var_componentName l |}).

Definition set_componentName (s : jsstring) : M unit :=
  fun l => Ret (inr tt, {| var_sandbox := var_sandbox l;
                           var_sandboxId := var_sandboxId l;
                           var_componentName := s |}).

(** [try { body } catch (error) { handler }] *)
Definition try_catch {A} (body : M A) (handler : Error -> M A) : M A :=
  fun l => bindP (body l) (fun rl =>
    match fst rl with
    | inl e => handler e (snd rl)
    | inr a => Ret (inr a, snd rl)
    end).

(** [if (cond) { block }] *)
Definition when (cond : bool) (block : M unit) : M unit :=
  if cond then block else ret tt.

Declare Scope prog_scope.
Delimit Scope prog_scope with prog.
Notation "x <- m ;; k" := (bind m (fun x => k))
  (at level 61, m at next level, right associativity) : prog_scope.
Notation "m ;; k" := (bind m (fun _ => k))
  (at level 61, right associativity) : prog_scope.

(** [`${v}`] of a variable that may still be [undefined]. *)
Definition show (v : option jsstring) : jsstring :=
  match v with
  | Some s => s
  | None => lit "undefined"
  end.

(** ** The script *)

Definition REGISTRY_URL : jsstring := lit "http://host.docker.internal:3030".

(** The part of [process.env] the script reads. *)
Record ProcessEnv : Type := {
  DAYTONA_API_KEY : option jsstring;
  ANTHROPIC_API_KEY : option jsstring
}.

(** The value [generateOpenComponentInDaytona] returns (lines 357-364). *)
Record PipelineResult : Type := {
  success : bool;
  sandboxId : option jsstring;
  componentName : jsstring;
  componentDir : jsstring;
  componentUrl : jsstring;
  registryUrl : jsstring
}.

Definition sandboxNotFound (sandboxId : jsstring) : Error :=
  lit "Sandbox " ++ sandboxId ++ lit " not found".
Definition installFailed : Error := lit "Failed to install OpenComponents CLI".
Definition initFailed : Error := lit "Failed to initialize OpenComponent".
Definition generationFailed : Error := lit "Component generation failed".
Definition buildFailed : Error := lit "Component build failed".
Definition publishFailed : Error :=
  lit "Component publish failed - check if registry is running".

Definition installTimeout : N := 180000.
Definition generationTimeout : N := 600000.
Definition buildTimeout : N := 180000.
Definition publishTimeout : N := 180000.

Section Script.

Variable toLowerCase : jsstring -> jsstring.

Local Open Scope prog_scope.

(** Step 1 (lines 31-47): find the sandbox of the given id, or create one. *)
Definition acquireSandbox : M Sandbox :=
  l <- get ;;
  if negb (falsy_opt (var_sandboxId l))
  then
    console_log "1. Using existing sandbox: " (show (var_sandboxId l)) ;;
    sandboxes <- await daytona_list ;;
    let found :=
      find (fun s => jsstring_eqb (id s) (show (var_sandboxId l))) sandboxes in
    set_sandbox found ;;
    match found with
    | None => throw (sandboxNotFound (show (var_sandboxId l)))
    | Some sandbox =>
        console_log "Connected to sandbox: " (id sandbox) ;;
        ret sandbox
    end
  else
    console_log "1. Creating new Daytona sandbox..." [] ;;
    sandbox <- await (daytona_create true (lit "node:20")) ;;
    set_sandbox (Some sandbox) ;;
    set_sandboxId (Some (id sandbox)) ;;
    console_log "Sandbox created: " (id sandbox) ;;
    ret sandbox.

(** Lines 29-364: the [try] block. Banner lines that print no run-time
    value and start no stage are left out. *)
Definition tryBlock (env : ProcessEnv) (prompt : option jsstring)
  : M PipelineResult :=
  sandbox <- acquireSandbox ;;
  rootDir <- await (getUserRootDir sandbox) ;;
  console_log "Working directory: " rootDir ;;
  (* Step 2 *)
  console_log "2. Installing OpenComponents CLI and Claude Code SDK..." [] ;;
  installOc <- await (executeCommand sandbox NpmInstallOc rootDir None
                        (Some installTimeout)) ;;
  when (negb (Z.eqb (exitCode installOc) 0))
    (console_error "OC CLI installation failed:" (result installOc) ;;
     throw installFailed) ;;
  console_log "OpenComponents CLI installed" [] ;;
  _ <- await (executeCommand sandbox NpmInstallClaudeCode rootDir None
                (Some installTimeout)) ;;
  console_log "Claude Code SDK installed" [] ;;
  (* Step 3 *)
  let name := Slug.componentName toLowerCase prompt in
  set_componentName name ;;
  console_log "Component name: " name ;;
  (* Step 4 *)
  let componentDir := rootDir ++ lit "/" ++ name in
  initResult <- await (executeCommand sandbox (OcInit name) rootDir None None) ;;
  when (negb (Z.eqb (exitCode initResult) 0))
    (console_log "Init output:" (result initResult) ;;
     throw initFailed) ;;
  console_log "Component scaffolded: " componentDir ;;
  (* Step 5 *)
  _ <- await (executeCommand sandbox (WriteGenerationScript prompt name)
                componentDir None None) ;;
  console_log "Generation script written" [] ;;
  (* Step 6 *)
  console_log "6. Running Claude Code generation..." [] ;;
  genResult <- await (executeCommand sandbox NodeGenerateComponent componentDir
                        (Some [("ANTHROPIC_API_KEY"%string, ANTHROPIC_API_KEY env);
                               ("NODE_PATH"%string,
                                Some (rootDir ++ lit "/node_modules"))])
                        (Some generationTimeout)) ;;
  console_log "Generation output:" (result genResult) ;;
  when (negb (Z.eqb (exitCode genResult) 0)) (throw generationFailed) ;;
  (* Step 7 *)
  console_log "7. Validating component structure..." [] ;;
  checkFiles <- await (executeCommand sandbox ListAndShowPackage componentDir
                         None None) ;;
  console_log "" (result checkFiles) ;;
  (* Step 8 *)
  console_log "8. Building OpenComponent..." [] ;;
  buildResult <- await (executeCommand sandbox OcBuild componentDir None
                          (Some buildTimeout)) ;;
  when (negb (Z.eqb (exitCode buildResult) 0))
    (console_log "Build output:" (result buildResult) ;;
     debugBuild <- await (executeCommand sandbox OcBuildVerbose componentDir
                            None None) ;;
     console_log "Debug build:" (result debugBuild) ;;
     throw buildFailed) ;;
  console_log "Component built successfully" [] ;;
  (* Step 9 *)
  console_log "9. Publishing component to registry..." [] ;;
  publishResult <- await (executeCommand sandbox (OcPublish REGISTRY_URL)
                            componentDir None (Some publishTimeout)) ;;
  console_log "Publish output:" (result publishResult) ;;
  when (negb (Z.eqb (exitCode publishResult) 0))
    (checkRegistry <- await (executeCommand sandbox (CurlRegistry REGISTRY_URL)
                               componentDir None None) ;;
     console_log "Registry check:" (result checkRegistry) ;;
     throw publishFailed) ;;
  console_log "Component published to registry" [] ;;
  (* Step 10 *)
  let componentUrl := REGISTRY_URL ++ name in
  testComponent <- await (executeCommand sandbox (CurlComponent componentUrl)
                            componentDir None None) ;;
  console_log "Component test:" (result testComponent) ;;
  console_log "SUCCESS! OpenComponent created and published!" [] ;;
  l <- get ;;
  ret {| success := true;
         sandboxId := var_sandboxId l;
         componentName := name;
         componentDir := componentDir;
         componentUrl := componentUrl;
         registryUrl := REGISTRY_URL |}.

(** Lines 366-387: the [catch] block. [rootDir] is a [const] of the [try]
    block and is not in scope here, so building the arguments of the debug
    command on line 375 throws a ReferenceError before anything is sent;
    the inner [try/catch] swallows it. The error is thrown again. *)
Definition catchBlock (error : Error) : M PipelineResult :=
  console_error "ERROR:" error ;;
  l <- get ;;
  match var_sandbox l with
  | Some _ =>
      console_log "Sandbox ID: " (show (var_sandboxId l)) ;;
      console_log "The sandbox is still running for debugging." []
  | None => ret tt
  end ;;
  throw error.

(** Lines 10-388. The result is the value returned ([inr]) or the error
    thrown ([inl]). *)
Definition generateOpenComponentInDaytona
  (env : ProcessEnv) (sandboxIdArg : option jsstring) (prompt : option jsstring)
  : Prog (Error + PipelineResult) :=
  bindP
    ((if falsy_opt (DAYTONA_API_KEY env) || falsy_opt (ANTHROPIC_API_KEY env)
      then
        console_error "ERROR: DAYTONA_API_KEY and ANTHROPIC_API_KEY must be set" [] ;;
        process_exit 1
      else
        try_catch (tryBlock env prompt) catchBlock)
       {| var_sandbox := None; var_sandboxId := sandboxIdArg;
          var_componentName := [] |})
    (fun rl => Ret (fst rl)).

(** Lines 391-425. [args] is [process.argv.slice(2)]. *)
Definition main (env : ProcessEnv) (args : list jsstring) : Prog unit :=
  let parsed := Cli.parseArguments args in
  let sandboxId := Cli.sandboxId parsed in
  let prompt := Cli.promptOrDefault (Cli.prompt parsed) in
  Print {| stream := stdout; text := "- Sandbox: ";
           value := if falsy_opt sandboxId then lit "Creating new"
                    else lit "Using existing " ++ show sandboxId |}
    (Print {| stream := stdout; text := "- Prompt: "; value := prompt |}
      (Print {| stream := stdout; text := "- Registry: "; value := REGISTRY_URL |}
        (bindP (generateOpenComponentInDaytona env sandboxId (Some prompt))
           (fun r =>
              match r with
              | inl error =>
                  Print {| stream := stderr; text := "Failed to generate component:";
                           value := error |} (Exit 1)
              | inr _ => Ret tt
              end)))).

End Script.

End Pipeline.

(** ** The generation script (lines 109-233)

    The text written to [generate-component.js] and run by [node] inside
    the sandbox, in the component directory. *)

Module GenerationScript.

Import Pipeline.

(** The names of the entries of the working directory. *)
Definition Files := list jsstring.

(** [fs.existsSync(name)] *)
Definition existsSync (dir : Files) (name : string) : bool :=
  existsb (jsstring_eqb (lit name)) dir.

(** What node makes of the script text before the [try] block is reached.
    The prompt is spliced into a template literal of the script (line
    114), so the text that node reads, and with it this outcome, depends
    on the prompt. *)
Inductive Loading : Type :=
| FailsToLoad
    (* the text is no program (the prompt closes the template literal
       early, say) or a [require] throws: node reports the error and
       ends with code 1 *)
| ThrowsEarly (error : Error)
    (* the template literal throws when it is evaluated on line 114: the
       promise of [generateOpenComponent()] is rejected, the final
       [.catch(console.error)] prints the error and the process ends
       with code 0 *)
| Loads.

(** How the [for await] loop over [query(...)] ends: after so many
    messages, or by an error, of the session or of the body of the loop. *)
Inductive Session : Type :=
| SessionEnded (messages : nat)
| SessionThrew (error : Error).

(** The working directory as the session left it, and how the file system
    answers the two calls of the script that can throw. *)
Record Disk : Type := {
  entries : Files;
  logWritable : bool;   (* line 207 returns: the messages are serialised
                           and [generation-log.json] is written *)
  listable : bool       (* [fs.readdirSync('.')] returns *)
}.

(** What the process leaves behind: its exit code, whether it printed the
    [Component structure incomplete!] warning, and the directory. *)
Record Run : Type := {
  exit_code : Z;
  warned : bool;
  files : Files
}.

Definition logFile : jsstring := lit "generation-log.json".

Definition endsWith (code : Z) (dir : Files) : Run :=
  {| exit_code := code; warned := false; files := dir |}.

(** The script, from node reading it to the end of the process. An error
    inside the [try] (the session, [writeFileSync], [readdirSync]) ends
    the process with code 1 (line 229); [existsSync] never throws, and
    what it answers is only printed. *)
Definition generateOpenComponent (loading : Loading) (session : Session)
  (disk : Disk) : Run :=
  match loading with
  | FailsToLoad => endsWith 1 (entries disk)
  | ThrowsEarly _ => endsWith 0 (entries disk)
  | Loads =>
      match session with
      | SessionThrew _ => endsWith 1 (entries disk)
      | SessionEnded _ =>
          (* fs.writeFileSync('generation-log.json', ...) *)
          if negb (logWritable disk) then endsWith 1 (entries disk)
          else
            let dir :=
              if existsb (jsstring_eqb logFile) (entries disk) then entries disk
              else logFile :: entries disk in
            (* fs.readdirSync('.') *)
            if negb (listable disk) then endsWith 1 dir
            else
              let hasView :=
                existsSync dir "view.js" || existsSync dir "view.jsx"
                || existsSync dir "view.ts" in
              let hasPackage := existsSync dir "package.json" in
              {| exit_code := 0;
                 warned := negb hasView || negb hasPackage;
                 files := dir |}
      end
  end.

(** A disk on which both calls return. *)
Definition healthy (dir : Files) : Disk :=
  {| entries := dir; logWritable := true; listable := true |}.

(** The artifact is complete: a view file and the manifest are there. *)
Definition complete (dir : Files) : bool :=
  (existsSync dir "view.js" || existsSync dir "view.jsx" || existsSync dir "view.ts")
  && existsSync dir "package.json".

End GenerationScript.

(** ** A simulated provider and sandbox

    An environment to run the pipeline against: the provider knows some
    sandboxes, creates one on demand, and the sandbox answers every command
    as the scenario says, except [node generate-component.js], which runs
    the generation script above: node loads it, and the log can be written
    and the directory listed. The state of the world is the content of the
    component directory. *)

Module Sim.

Import Pipeline GenerationScript.

Record Scenario : Type := {
  known : list Sandbox;
  created : Sandbox;
  root : jsstring;
  scaffold : Files;
  session : Session;
  edited : Files;
  answer : Command -> ExecuteResponse
}.

Definition execute (sc : Scenario) (c : Command) (dir : Files)
  : ExecuteResponse * Files :=
  match c with
  | OcInit _ =>
      (answer sc c, if Z.eqb (exitCode (answer sc c)) 0 then scaffold sc else dir)
  | NodeGenerateComponent =>
      let r := generateOpenComponent Loads (session sc) (healthy (edited sc)) in
      ({| exitCode := exit_code r;
          result := if warned r then lit "Component structure incomplete!"
                    else lit "Component generation complete!" |},
       files r)
  | _ => (answer sc c, dir)
  end.

Definition handle (sc : Scenario) : Handler Files :=
  fun o =>
    match o return Files -> (Error + Resp o) * Files with
    | daytona_list => fun dir => (inr (known sc), dir)
    | daytona_create _ _ => fun dir => (inr (created sc), dir)
    | daytona_delete _ => fun dir => (inr tt, dir)
    | daytona_stop _ => fun dir => (inr tt, dir)
    | getUserRootDir _ => fun dir => (inr (root sc), dir)
    | executeCommand _ c _ _ _ =>
        fun dir => let (r, dir') := execute sc c dir in (inr r, dir')
    end.

Definition ok (out : string) : ExecuteResponse :=
  {| exitCode := 0; result := lit out |}.

Definition failed (out : string) : ExecuteResponse :=
  {| exitCode := 1; result := lit out |}.

Definition skeleton : Files :=
  [lit "package.json"; lit "view.js"; lit "server.js"; lit "public"].

(** Everything works: the registry accepts the component. *)
Definition allGood : Scenario :=
  {| known := [];
     created := {| id := lit "sandbox-1" |};
     root := lit "/home/daytona";
     scaffold := skeleton;
     session := SessionEnded 12;
     edited := skeleton;
     answer := fun _ => ok "done" |}.

(** The agent session ends normally but has removed the view file. *)
Definition viewRemoved : Scenario :=
  {| known := []; created := created allGood; root := root allGood;
     scaffold := skeleton;
     session := SessionEnded 12;
     edited := [lit "package.json"; lit "server.js"; lit "public"];
     answer := answer allGood |}.

(** The agent SDK cannot be installed; everything else works. *)
Definition sdkInstallFails : Scenario :=
  {| known := []; created := created allGood; root := root allGood;
     scaffold := skeleton; session := SessionEnded 12; edited := skeleton;
     answer := fun c =>
       match c with
       | NpmInstallClaudeCode => failed "npm ERR! network"
       | _ => ok "done"
       end |}.

(** Publishing fails and the probe cannot reach the registry. *)
Definition registryDown : Scenario :=
  {| known := []; created := created allGood; root := root allGood;
     scaffold := skeleton; session := SessionEnded 12; edited := skeleton;
     answer := fun c =>
       match c with
       | OcPublish _ => failed "connect ECONNREFUSED"
       | CurlRegistry _ => ok "Registry not accessible"
       | _ => ok "done"
       end |}.

(** Publishing fails although the probe reaches the registry: the registry
    has rejected the component. *)
Definition registryRejects : Scenario :=
  {| known := []; created := created allGood; root := root allGood;
     scaffold := skeleton; session := SessionEnded 12; edited := skeleton;
     answer := fun c =>
       match c with
       | OcPublish _ => failed "Component version already exists"
       | CurlRegistry _ => ok "{ type: oc-registry }"
       | _ => ok "done"
       end |}.

(** The provider knows one sandbox, [sandbox-7]. *)
Definition oneKnown : Scenario :=
  {| known := [{| id := lit "sandbox-7" |}];
     created := created allGood; root := root allGood;
     scaffold := skeleton; session := SessionEnded 12; edited := skeleton;
     answer := answer allGood |}.

(** [DAYTONA_API_KEY] is not set. *)
Definition noDaytonaKey : ProcessEnv :=
  {| DAYTONA_API_KEY := None;
     ANTHROPIC_API_KEY := Some (lit "sk-ant-key") |}.

Definition keys : ProcessEnv :=
  {| DAYTONA_API_KEY := Some (lit "dtn_key");
     ANTHROPIC_API_KEY := Some (lit "sk-ant-key") |}.

Definition buttonPrompt : jsstring := lit "Create a button component".

(** A run of the pipeline on the button prompt, without a sandbox id. *)
Definition runButton (sc : Scenario) :=
  run (handle sc)
    (generateOpenComponentInDaytona asciiToLowerCase keys None (Some buttonPrompt))
    [].

End Sim.

(** ** Properties of every path of a program *)

Module Safety.

Import Pipeline.

(** [P] holds of every event of every run of the program, whatever the
    environment answers. *)
Inductive Always (P : Event -> Prop) {A : Type} : Prog A -> Prop :=
| Always_Ret : forall a, Always P (Ret a)
| Always_Exit : forall c, Always P (Exit c)
| Always_Print : forall l k,
    P (Printed l) -> Always P k -> Always P (Print l k)
| Always_Await : forall o k,
    (forall r, P (Called o r)) -> (forall r, Always P (k r)) ->
    Always P (Await o k).

(** The event is not a teardown of a sandbox. *)
Definition keepsSandbox (ev : Event) : Prop :=
  match ev with
  | Called o _ => isTeardown o = false
  | Printed _ => True
  end.

(** The [timeout] argument the script passes with each command. *)
Definition timeoutArgument (c : Command) : option N :=
  match c with
  | NpmInstallOc => Some 180000%N
  | NpmInstallClaudeCode => Some 180000%N
  | NodeGenerateComponent => Some 600000%N
  | OcBuild => Some 180000%N
  | OcPublish _ => Some 180000%N
  | OcInit _ => None
  | WriteGenerationScript _ _ => None
  | ListAndShowPackage => None
  | OcBuildVerbose => None
  | CurlRegistry _ => None
  | CurlComponent _ => None
  end.

Definition timeoutAsListed (ev : Event) : Prop :=
  match execution_of ev with
  | Some x => x_timeout x = timeoutArgument (x_command x)
  | None => True
  end.

(** The lines [Registry check: <output>] for the answers of the probe. *)
Definition probeReports (tr : list Event) : list LogLine :=
  flat_map (fun x =>
    match x_response x with
    | inr r =>
        if isRegistryProbe (x_command x)
        then [{| stream := stdout; text := "Registry check:"; value := result r |}]
        else []
    | inl _ => []
    end) (executions tr).

End Safety.

(** ** Stages of a run *)

Module Stages.

Import Pipeline.

Definition isOcBuild (c : Command) : bool :=
  match c with
  | OcBuild => true
  | _ => false
  end.

Definition isWriteScript (c : Command) : bool :=
  match c with
  | WriteGenerationScript _ _ => true
  | _ => false
  end.

Definition isVerification (c : Command) : bool :=
  match c with
  | CurlComponent _ => true
  | _ => false
  end.

(** The commands sent, in order. *)
Definition commands (tr : list Event) : list Command :=
  List.map x_command (executions tr).

(** The commands of steps 2 to 10 in the order of the script, for a prompt
    and the component name derived from it. *)
Definition stageOrder (prompt : option jsstring) (name : jsstring) : list Command :=
  [NpmInstallOc; NpmInstallClaudeCode; OcInit name;
   WriteGenerationScript prompt name; NodeGenerateComponent;
   ListAndShowPackage; OcBuild; OcPublish REGISTRY_URL;
   CurlComponent (REGISTRY_URL ++ name)].

(** The error of the first operation whose promise was rejected. *)
Fixpoint firstRejection (tr : list Event) : option Error :=
  match tr with
  | [] => None
  | Printed _ :: tr' => firstRejection tr'
  | Called _ (inl e) :: _ => Some e
  | Called _ (inr _) :: tr' => firstRejection tr'
  end.

(** The operations called after the first rejected one. *)
Fixpoint callsAfterRejection (tr : list Event) : list Op :=
  match tr with
  | [] => []
  | Printed _ :: tr' => callsAfterRejection tr'
  | Called _ (inl _) :: tr' => calls tr'
  | Called _ (inr _) :: tr' => callsAfterRejection tr'
  end.

(** The sandbox the run works in: the one whose root directory is asked
    for (line 49), and the answer to that question. *)
Fixpoint acquired (tr : list Event) : option Sandbox :=
  match tr with
  | [] => None
  | Called (getUserRootDir sb) _ :: _ => Some sb
  | _ :: tr' => acquired tr'
  end.

Definition rootDir_of (ev : Event) : option jsstring :=
  match ev with
  | Called o r =>
      match o return Error + Resp o -> option jsstring with
      | getUserRootDir _ =>
          fun r => match r with inr d => Some d | inl _ => None end
      | _ => fun _ => None
      end r
  | Printed _ => None
  end.

Fixpoint rootDir (tr : list Event) : option jsstring :=
  match tr with
  | [] => None
  | ev :: tr' =>
      match rootDir_of ev with
      | Some d => Some d
      | None => rootDir tr'
      end
  end.

(** The run has returned a result that says [success]. *)
Definition isSuccess (out : Outcome (Error + PipelineResult)) : bool :=
  match out with
  | Returned (inr res) => success res
  | _ => false
  end.

Definition isCreate (o : Op) : bool :=
  match o with
  | daytona_create _ _ => true
  | _ => false
  end.

Definition isList (o : Op) : bool :=
  match o with
  | daytona_list => true
  | _ => false
  end.

End Stages.

(** ** More scenarios for the simulated sandbox *)

Module MoreScenarios.

Import Pipeline GenerationScript Sim.

Definition answering (answer : Command -> ExecuteResponse) : Scenario :=
  {| known := []; created := created allGood; root := root allGood;
     scaffold := skeleton; session := SessionEnded 12; edited := skeleton;
     answer := answer |}.

(** The OC CLI cannot be installed. *)
Definition cliInstallFails : Scenario :=
  answering (fun c =>
    match c with
    | NpmInstallOc => failed "npm ERR! EACCES"
    | _ => ok "done"
    end).

(** The scaffold command fails. *)
Definition initFails : Scenario :=
  answering (fun c =>
    match c with
    | OcInit _ => failed "oc: component already exists"
    | _ => ok "done"
    end).

(** The agent session throws, so the generation script exits with code 1. *)
Definition sessionThrows : Scenario :=
  {| known := []; created := created allGood; root := root allGood;
     scaffold := skeleton; session := SessionThrew (lit "credit balance too low");
     edited := skeleton; answer := answer allGood |}.

(** The build fails, and so does the verbose rebuild. *)
Definition buildFails : Scenario :=
  answering (fun c =>
    match c with
    | OcBuild => failed "build error"
    | OcBuildVerbose => failed "view.js: unexpected token"
    | _ => ok "done"
    end).

(** The provider knows two sandboxes; the second one has the id of
    [Cli.sampleUuid]. *)
Definition twoKnown : Scenario :=
  {| known := [{| id := lit "sandbox-7" |}; {| id := Cli.sampleUuid |}];
     created := created allGood; root := root allGood;
     scaffold := skeleton; session := SessionEnded 12; edited := skeleton;
     answer := answer allGood |}.

(** A run on the button prompt in the sandbox of id [Cli.sampleUuid]. *)
Definition reattachButton : Prog (Error + PipelineResult) :=
  generateOpenComponentInDaytona asciiToLowerCase keys (Some Cli.sampleUuid)
    (Some buttonPrompt).

Definition button : Prog (Error + PipelineResult) :=
  generateOpenComponentInDaytona asciiToLowerCase keys None (Some buttonPrompt).

End MoreScenarios.

(** ** The size of a directory (oc-list-components.ts, lines 163-184;
       oc-clean-registry.ts, lines 173-194)

    [getDirectorySize] walks a directory with [fs.readdirSync] and
    [fs.statSync]. The tree below is what these two calls find. Sizes are
    JavaScript numbers, and [size += ...] adds doubles: the sum is exact up
    to 2^53 and rounded beyond. *)

Module DirectorySize.

Local Open Scope N_scope.

(** The values [size] takes: JavaScript numbers that are whole and not
    negative, or [Infinity]. [Finite n] is the double whose value is [n]. *)
Inductive Number : Type :=
| Finite (n : N)
| Infinity.

(** The double nearest to a whole number, ties to the even significand:
    the number itself below 2^53, a multiple of the spacing of the doubles
    around it above. *)
Definition roundToDouble (n : N) : N :=
  if n <? 2 ^ 53 then n
  else
    let ulp := 2 ^ (N.log2 n - 52) in
    let q := n / ulp in
    let r := n mod ulp in
    if 2 * r <? ulp then q * ulp
    else if ulp <? 2 * r then (q + 1) * ulp
    else if N.even q then q * ulp
    else (q + 1) * ulp.

(** The number a whole quantity becomes: its nearest double, [Infinity]
    from 2^1024 on. *)
Definition toNumber (n : N) : Number :=
  if roundToDouble n <? 2 ^ 1024 then Finite (roundToDouble n) else Infinity.

(** [a + b]: the exact sum, rounded. *)
Definition plus (a b : Number) : Number :=
  match a, b with
  | Finite x, Finite y => toNumber (x + y)
  | _, _ => Infinity
  end.

(** What is found under a name. *)
#[warnings="-register-all"]
Inductive Entry : Type :=
| File (size : N)
    (* statSync succeeds, isDirectory() is false; [stats.size] is the
       number of bytes as a number *)
| Directory (listing : option (list (jsstring * Entry)))
    (* statSync succeeds, isDirectory() is true; readdirSync gives the
       entries, or throws ([None]) *)
| Unstatable
    (* statSync throws: a dangling link, a name removed meanwhile *).

(** The [for] loop: [size] grows entry by entry, by [size += ...], until
    a [statSync] throws; the [catch] then keeps what has been added so
    far. Each element is what one entry adds, or [None] when its
    [statSync] throws. *)
Fixpoint sumUntilError (size : Number) (added : list (option Number)) : Number :=
  match added with
  | [] => size
  | Some n :: rest => sumUntilError (plus size n) rest
  | None :: _ => size
  end.

(** What one turn of the loop adds for an entry: the size of a file, the
    result of the recursive call for a directory (0 when its
    [readdirSync] throws), nothing when [statSync] throws. *)
Fixpoint added (e : Entry) : option Number :=
  match e with
  | File size => Some (toNumber size)
  | Directory None => Some (Finite 0)
  | Directory (Some entries) =>
      Some (sumUntilError (Finite 0) (List.map (fun ne => added (snd ne)) entries))
  | Unstatable => None
  end.

(** [getDirectorySize(dirPath)], for what [readdirSync(dirPath)] gives. *)
Definition getDirectorySize (listing : option (list (jsstring * Entry))) : Number :=
  match listing with
  | None => Finite 0
  | Some entries =>
      sumUntilError (Finite 0) (List.map (fun ne => added (snd ne)) entries)
  end.

(** The sizes of all the files under an entry, however deep. *)
Fixpoint fileSizes (e : Entry) : list N :=
  match e with
  | File size => [size]
  | Directory None => []
  | Directory (Some entries) => flat_map (fun ne => fileSizes (snd ne)) entries
  | Unstatable => []
  end.

Definition total (sizes : list N) : N := fold_right N.add 0%N sizes.

(** Every directory under the entry can be listed and every name can be
    examined. *)
Fixpoint readable (e : Entry) : bool :=
  match e with
  | File _ => true
  | Directory None => false
  | Directory (Some entries) => forallb (fun ne => readable (snd ne)) entries
  | Unstatable => false
  end.

(** A component directory with a view, a manifest and an asset folder. *)
Definition sampleComponent : list (jsstring * Entry) :=
  [(lit "package.json", File 412);
   (lit "view.js", File 2048);
   (lit "public", Directory (Some [(lit "style.css", File 900);
                                   (lit "logo.svg", File 1500)]))].

(** The same directory where [server.js] is a dangling link. *)
Definition brokenComponent : list (jsstring * Entry) :=
  [(lit "package.json", File 412);
   (lit "server.js", Unstatable);
   (lit "view.js", File 2048)].

(** A directory whose files are too large for their sizes to add up
    exactly. *)
Definition hugeFiles (second : N) : list (jsstring * Entry) :=
  [(lit "first.bin", File (2 ^ 53)); (lit "second.bin", File second)].

End DirectorySize.

From Stdlib Require Import DecimalString.

(** ** The registry scripts (start-oc-registry.ts, oc-clean-registry.ts,
       setup-oc-registry.ts)

    These scripts run on the developer's machine. They talk to the file
    system and to child processes; as for the pipeline, a script is a
    finite tree of these interactions, run against an environment. *)

Module Registry.

Import Pipeline.

(** A path, as the names joined by [path.join] under [process.cwd()]. *)
Definition Path := list jsstring.

Definition REGISTRY_DIR : Path := [lit ".oc-registry"].
Definition COMPONENTS_DIR : Path := REGISTRY_DIR ++ [lit "components"].
Definition tempDir : Path := REGISTRY_DIR ++ [lit "temp"].
Definition nodeModules : Path := REGISTRY_DIR ++ [lit "node_modules"].
Definition configPath : Path := REGISTRY_DIR ++ [lit "config.json"].
Definition startupScriptPath : Path := REGISTRY_DIR ++ [lit "start-registry.js"].
Definition packagePath : Path := REGISTRY_DIR ++ [lit "package.json"].

Definition possibleLogFiles : list Path :=
  [REGISTRY_DIR ++ [lit "registry.log"];
   REGISTRY_DIR ++ [lit "npm-debug.log"];
   REGISTRY_DIR ++ [lit "error.log"]].

(** The three texts the setup script writes. *)
Inductive Written : Type :=
| RegistryConfig      (* JSON.stringify(registryConfig, null, 2) *)
| StartupScript       (* startupScript.trim() *)
| RegistryPackageJson (* JSON.stringify(registryPackageJson, null, 2) *).

(** How [spawn("netstat", ["-an"])] ends: its [close] event with the
    output collected from stdout, or its [error] event. *)
Inductive PortCheck : Type :=
| Closed (output : jsstring)
| CheckError.

(** What becomes of the registry process once [spawn] has returned: its
    [error] event, its [close] event with the exit code ([None] for
    [null]), or neither as long as the server runs. *)
Inductive ServerEnd : Type :=
| SpawnError (error : Error)
| ServerClosed (code : option Z)
| ServerRuns.

Inductive Op : Type :=
| existsSync (p : Path)
| readdirSync (p : Path)
| isDirectory (p : Path)
    (* fs.statSync(p).isDirectory() *)
| directorySize (p : Path)
    (* getDirectorySize(p), which catches every error *)
| rmSync (p : Path)
    (* fs.rmSync(p, { recursive: true, force: true }) *)
| unlinkSync (p : Path)
| mkdirSync (p : Path)
    (* fs.mkdirSync(p, { recursive: true }) *)
| writeFileSync (p : Path) (content : Written)
| netstat
| npm (command : string) (args : list string) (cwd : Path)
    (* spawn(command, args, { cwd }), awaited until its close event *)
| setupScript
    (* spawn("npx", ["tsx", "scripts/setup-oc-registry.ts"]), awaited *)
| npmStart (command : string) (cwd : Path)
    (* spawn(command, ["start"], { cwd }), not awaited: the script goes
       on living as long as this child does *).

(** What each operation gives back. The calls of [fs] that can throw give
    an error or a value; a child process awaited to its [close] event gives
    its exit code ([None] for [null]: ended by a signal); [npmStart] gives
    what becomes of the registry process; [directorySize] gives a number,
    as [getDirectorySize] does. *)
Definition Resp (o : Op) : Type :=
  match o with
  | existsSync _ => bool
  | readdirSync _ => (Error + list jsstring)%type
  | isDirectory _ => (Error + bool)%type
  | directorySize _ => DirectorySize.Number
  | rmSync _ => (Error + unit)%type
  | unlinkSync _ => (Error + unit)%type
  | mkdirSync _ => (Error + unit)%type
  | writeFileSync _ _ => (Error + unit)%type
  | netstat => PortCheck
  | npm _ _ _ => option Z
  | setupScript => option Z
  | npmStart _ _ => ServerEnd
  end.

(** A script: it returns, or the process ends with an exit code, or it
    stays for ever (behind a child process that never ends), or it prints
    a line, or asks for an operation. *)
Inductive Proc (A : Type) : Type :=
| Done (a : A)
| Quit (code : Z)
| Forever
| Say (line : LogLine) (k : Proc A)
| Do (o : Op) (k : Resp o -> Proc A).

Arguments Quit {A} code.
Arguments Forever {A}.

Fixpoint bindP {A B} (p : Proc A) (f : A -> Proc B) : Proc B :=
  match p with
  | Done a => f a
  | Quit c => Quit c
  | Forever => Forever
  | Say l k => Say l (bindP k f)
  | Do o k => Do o (fun r => bindP (k r) f)
  end.

Inductive Event : Type :=
| Said (line : LogLine)
| Did (o : Op) (r : Resp o).

Inductive Outcome (A : Type) : Type :=
| Finished (a : A)
| Exited (code : Z)
| Waiting.

Arguments Exited {A} code.
Arguments Waiting {A}.

Section Run.

Variable World : Type.

Definition Handler := forall o : Op, World -> Resp o * World.

Variable handle : Handler.

Fixpoint run {A} (p : Proc A) (w : World) : Outcome A * list Event * World :=
  match p with
  | Done a => (Finished a, [], w)
  | Quit c => (Exited c, [], w)
  | Forever => (Waiting, [], w)
  | Say l k =>
      let '(out, tr, w') := run k w in (out, Said l :: tr, w')
  | Do o k =>
      let (r, w1) := handle o w in
      let '(out, tr, w2) := run (k r) w1 in (out, Did o r :: tr, w2)
  end.

Definition outcome {A} (p : Proc A) (w : World) : Outcome A := fst (fst (run p w)).
Definition trace {A} (p : Proc A) (w : World) : list Event := snd (fst (run p w)).

End Run.

(** An environment without state that answers each operation as a table
    says. *)
Definition scripted (answers : forall o : Op, Resp o) : Handler unit :=
  fun o w => (answers o, w).

(** *** Reading a trace *)

Fixpoint operations (tr : list Event) : list Op :=
  match tr with
  | [] => []
  | Said _ :: tr' => operations tr'
  | Did o _ :: tr' => o :: operations tr'
  end.

Fixpoint said (tr : list Event) : list LogLine :=
  match tr with
  | [] => []
  | Said l :: tr' => l :: said tr'
  | Did _ _ :: tr' => said tr'
  end.

(** The operation changes the file system or starts a process that does. *)
Definition changes (o : Op) : bool :=
  match o with
  | rmSync _ | unlinkSync _ | mkdirSync _ | writeFileSync _ _ => true
  | npm _ _ _ | setupScript | npmStart _ _ => true
  | _ => false
  end.

Definition isNpmStart (o : Op) : bool :=
  match o with
  | npmStart _ _ => true
  | _ => false
  end.

(** What became of the registry process, each time it was spawned. *)
Fixpoint serverEnds (tr : list Event) : list ServerEnd :=
  match tr with
  | [] => []
  | Did (npmStart _ _) r :: tr' => r :: serverEnds tr'
  | _ :: tr' => serverEnds tr'
  end.

Definition isWrite (o : Op) : bool :=
  match o with
  | writeFileSync _ _ => true
  | _ => false
  end.

Fixpoint path_eqb (a b : Path) : bool :=
  match a, b with
  | [], [] => true
  | x :: a', y :: b' => jsstring_eqb x y && path_eqb a' b'
  | _, _ => false
  end.

Definition writesTo (p : Path) (o : Op) : bool :=
  match o with
  | writeFileSync q _ => path_eqb p q
  | _ => false
  end.

(** The answers of the port checks of a trace. *)
Fixpoint portChecks (tr : list Event) : list PortCheck :=
  match tr with
  | [] => []
  | Did netstat r :: tr' => r :: portChecks tr'
  | _ :: tr' => portChecks tr'
  end.

(** The answers given to [existsSync(p)] in a trace. *)
Fixpoint existence (p : Path) (tr : list Event) : list bool :=
  match tr with
  | [] => []
  | Did (existsSync q) r :: tr' =>
      if path_eqb p q then r :: existence p tr' else existence p tr'
  | _ :: tr' => existence p tr'
  end.

(** The exit codes of the runs of [npm] with the given arguments. *)
Fixpoint npmCodes (args : list string) (tr : list Event) : list (option Z) :=
  match tr with
  | [] => []
  | Did (npm _ a _) r :: tr' =>
      if list_eq_dec string_dec a args then r :: npmCodes args tr'
      else npmCodes args tr'
  | _ :: tr' => npmCodes args tr'
  end.

Fixpoint setupCodes (tr : list Event) : list (option Z) :=
  match tr with
  | [] => []
  | Did setupScript r :: tr' => r :: setupCodes tr'
  | _ :: tr' => setupCodes tr'
  end.

(** *** Strings *)

(** [s.startsWith(sub)] *)
Fixpoint startsWith (s sub : jsstring) : bool :=
  match sub, s with
  | [], _ => true
  | a :: sub', b :: s' => N.eqb a b && startsWith s' sub'
  | _ :: _, [] => false
  end.

(** [s.includes(sub)] *)
Fixpoint includes (s sub : jsstring) : bool :=
  startsWith s sub ||
  match s with
  | [] => false
  | _ :: s' => includes s' sub
  end.

(** [`${n}`] for a count. *)
Definition decimal (n : nat) : jsstring :=
  lit (NilEmpty.string_of_uint (Nat.to_uint n)).

(** [`${code}`] for an exit code, which may be [null]. *)
Definition showCode (code : option Z) : jsstring :=
  match code with
  | Some z => lit (NilEmpty.string_of_int (Z.to_int z))
  | None => lit "null"
  end.

(** [code === 0] *)
Definition isZero (code : option Z) : bool :=
  match code with
  | Some z => Z.eqb z 0
  | None => false
  end.

(** The test made on the output of [netstat -an] in the three scripts:
    [output.includes(`:${REGISTRY_PORT} `) ||
     output.includes(`:${REGISTRY_PORT}\t`)], with [REGISTRY_PORT = 3030]. *)
Definition portInUse (output : jsstring) : bool :=
  includes output (lit ":3030 ") || includes output (lit ":3030" ++ [9%N]).

(** What the [close] and [error] handlers of the port check leave in
    [isRunning] / [portInUse], initially [false]. *)
Definition seenInUse (check : PortCheck) : bool :=
  match check with
  | Closed output => portInUse output
  | CheckError => false
  end.

(** *** Scripts that can throw *)

Definition X (A : Type) : Type := Proc (Error + A).

Definition ret {A} (a : A) : X A := Done (inr a).

Definition throw {A} (e : Error) : X A := Done (inl e).

Definition bind {A B} (m : X A) (f : A -> X B) : X B :=
  bindP m (fun r =>
    match r with
    | inl e => Done (inl e)
    | inr a => f a
    end).

Definition try_catch {A} (body : X A) (handler : Error -> X A) : X A :=
  bindP body (fun r =>
    match r with
    | inl e => handler e
    | inr a => Done (inr a)
    end).

(** An operation that cannot throw. *)
Definition ask (o : Op) : X (Resp o) := Do o (fun r => Done (inr r)).

Definition fs_readdirSync (p : Path) : X (list jsstring) :=
  Do (readdirSync p) (fun r => Done r).
Definition fs_isDirectory (p : Path) : X bool :=
  Do (isDirectory p) (fun r => Done r).
Definition fs_rmSync (p : Path) : X unit :=
  Do (rmSync p) (fun r => Done r).
Definition fs_unlinkSync (p : Path) : X unit :=
  Do (unlinkSync p) (fun r => Done r).
Definition fs_mkdirSync (p : Path) : X unit :=
  Do (mkdirSync p) (fun r => Done r).
Definition fs_writeFileSync (p : Path) (content : Written) : X unit :=
  Do (writeFileSync p content) (fun r => Done r).

Definition console_log (t : string) (v : jsstring) : X unit :=
  Say {| stream := stdout; text := t; value := v |} (Done (inr tt)).

Definition console_error (t : string) (v : jsstring) : X unit :=
  Say {| stream := stderr; text := t; value := v |} (Done (inr tt)).

Definition process_exit {A} (code : Z) : X A := Quit code.

Declare Scope proc_scope.
Delimit Scope proc_scope with proc.
Notation "x <- m ;; k" := (bind m (fun x => k))
  (at level 61, m at next level, right associativity) : proc_scope.
Notation "m ;; k" := (bind m (fun _ => k))
  (at level 61, right associativity) : proc_scope.

Local Open Scope proc_scope.

(** [process.platform === 'win32' ? 'npm.cmd' : 'npm'] *)
Definition npmCmd (win32 : bool) : string :=
  if win32 then "npm.cmd"%string else "npm"%string.

(** *** start-oc-registry.ts, lines 8-121 *)

Definition setupFailed (code : option Z) : Error :=
  lit "Setup failed with code " ++ showCode code.

Definition notConfigured : Error :=
  lit "Registry configuration or startup script not found".

(** The [try] block. When [netstat] cannot be spawned its [error] event
    is followed at once by its [close] event, whose handler finds no
    output and prints that the port is available. After the registry
    process is spawned, the pending promise of line 115 holds nothing
    open: the script lives as long as that process. If its [error] event
    comes, the handler ends the script with exit code 1; when it closes,
    the handler prints the exit code unless it is 0 and, nothing being
    left to wait for, the script ends with exit code 0. *)
Definition startBody (win32 : bool) : X unit :=
  found <- ask (existsSync REGISTRY_DIR) ;;
  (if negb found
   then
     console_log "Registry not found. Running setup first..." [] ;;
     code <- ask setupScript ;;
     (if isZero code then ret tt else throw (setupFailed code)) ;;
     console_log "Setup completed. Starting registry..." []
   else ret tt) ;;
  config <- ask (existsSync configPath) ;;
  (* [!a || !b]: the second test is made only when the first file exists *)
  script <- (if config then ask (existsSync startupScriptPath) else ret false) ;;
  (if negb config || negb script then throw notConfigured else ret tt) ;;
  console_log "Checking if port is available: " (lit "3030") ;;
  check <- ask netstat ;;
  match check with
  | Closed output =>
      if portInUse output
      then console_log "Port appears to be in use: " (lit "3030")
      else console_log "Port is available: " (lit "3030")
  | CheckError =>
      console_log "Could not check port availability" [] ;;
      console_log "Port is available: " (lit "3030")
  end ;;
  if seenInUse check
  then
    console_log "Registry might already be running or port is in use" [] ;;
    console_log "If the registry is already running, you can access it at:"
      (lit "http://localhost:3030/")
  else
    console_log "Starting registry server..." [] ;;
    ending <- ask (npmStart (npmCmd win32) REGISTRY_DIR) ;;
    match ending with
    | SpawnError error =>
        console_error "Failed to start registry:" error ;;
        process_exit 1
    | ServerClosed code =>
        (if isZero code then ret tt
         else console_error "Registry process exited with code " (showCode code)) ;;
        Quit 0
    | ServerRuns => Forever
    end.

Definition startOpenComponentsRegistry (win32 : bool) : X unit :=
  console_log "Starting OpenComponents registry..." [] ;;
  try_catch (startBody win32)
    (fun error =>
       console_error "Failed to start registry:" error ;;
       process_exit 1).

(** *** oc-clean-registry.ts, lines 9-216 *)

(** [items.filter(item => fs.statSync(path.join(dir, item)).isDirectory())] *)
Fixpoint onlyDirectories (dir : Path) (items : list jsstring) : X (list jsstring) :=
  match items with
  | [] => ret []
  | item :: rest =>
      d <- fs_isDirectory (dir ++ [item]) ;;
      ds <- onlyDirectories dir rest ;;
      ret (if d then item :: ds else ds)
  end.

(** [for (const comp of components) totalSize += getDirectorySize(...)] *)
Fixpoint totalSize (dir : Path) (size : DirectorySize.Number)
  (components : list jsstring) : X DirectorySize.Number :=
  match components with
  | [] => ret size
  | comp :: rest =>
      n <- ask (directorySize (dir ++ [comp])) ;;
      totalSize dir (DirectorySize.plus size n) rest
  end.

(** [for (const logFile of possibleLogFiles) if (fs.existsSync(logFile)) ...] *)
Fixpoint removeLogs (logFiles : list Path) : X unit :=
  match logFiles with
  | [] => ret tt
  | logFile :: rest =>
      found <- ask (existsSync logFile) ;;
      (if found
       then
         fs_unlinkSync logFile ;;
         console_log "Removed log file: " (last logFile [])
       else ret tt) ;;
      removeLogs rest
  end.

(** Lines 67-149: what is done once the registry is seen not to run. *)
Definition cleanUp (componentsCount : nat) : X unit :=
  console_log "Registry not running - safe to clean" [] ;;
  console_log "WARNING: This will DELETE all published components!" [] ;;
  console_log "Components to be deleted: " (decimal componentsCount) ;;
  console_log "Proceeding with cleanup..." [] ;;
  found <- ask (existsSync COMPONENTS_DIR) ;;
  (if found
   then
     fs_rmSync COMPONENTS_DIR ;;
     console_log "Components directory removed" []
   else ret tt) ;;
  found <- ask (existsSync tempDir) ;;
  (if found
   then
     fs_rmSync tempDir ;;
     console_log "Temporary files removed" []
   else ret tt) ;;
  removeLogs possibleLogFiles ;;
  fs_mkdirSync COMPONENTS_DIR ;;
  console_log "Clean components directory created" [] ;;
  found <- ask (existsSync nodeModules) ;;
  (if found
   then
     fs_rmSync nodeModules ;;
     console_log "node_modules removed" [] ;;
     code <- ask (npm "npm" ["install"%string] REGISTRY_DIR) ;;
     if isZero code
     then console_log "Dependencies reinstalled" []
     else console_log "Dependencies installation had issues" []
   else ret tt) ;;
  console_log "Registry cleanup complete! Removed components: "
    (decimal componentsCount).

Definition cleanBody : X unit :=
  found <- ask (existsSync REGISTRY_DIR) ;;
  if negb found
  then console_log "Registry directory doesn't exist - nothing to clean" []
  else
    found <- ask (existsSync COMPONENTS_DIR) ;;
    componentsCount <-
      (if found
       then
         items <- fs_readdirSync COMPONENTS_DIR ;;
         components <- onlyDirectories COMPONENTS_DIR items ;;
         _ <- totalSize COMPONENTS_DIR (DirectorySize.Finite 0) components ;;
         ret (List.length components)
       else ret 0%nat) ;;
    console_log "Found components: " (decimal componentsCount) ;;
    check <- ask netstat ;;
    if seenInUse check
    then
      console_log "Registry appears to be running on port " (lit "3030") ;;
      console_log "Please stop the registry before cleaning" []
    else cleanUp componentsCount.

Definition cleanRegistry : X unit :=
  console_log "OpenComponents Registry Cleaner" [] ;;
  try_catch cleanBody
    (fun error =>
       console_error "Cleanup failed:" error ;;
       throw error).

(** [args.includes('--force') || args.includes('-f')] *)
Definition force (args : list jsstring) : bool :=
  existsb (jsstring_eqb (lit "--force")) args
  || existsb (jsstring_eqb (lit "-f")) args.

(** [main] of the clean script (lines 197-216). *)
Definition cleanMain (args : list jsstring) : Proc unit :=
  if negb (force args)
  then
    Say {| stream := stdout;
           text := "This will permanently delete all components in the registry!";
           value := [] |}
      (Say {| stream := stdout; text := "Add --force flag to proceed"; value := [] |}
         (Done tt))
  else
    bindP cleanRegistry (fun r =>
      match r with
      | inl error =>
          Say {| stream := stderr; text := "Registry cleanup failed:";
                 value := error |} (Quit 1)
      | inr _ => Done tt
      end).

(** *** setup-oc-registry.ts (in oc-clean-registry.ts, lines 226-442) *)

(** The value [setupOpenComponentsRegistry] returns. *)
Record SetupResult : Type := {
  registryDir : Path;
  componentsDir : Path;
  port : N;
  url : jsstring
}.

Definition installationFailed (code : option Z) : Error :=
  lit "Installation failed with code " ++ showCode code.

Definition dependenciesFailed (code : option Z) : Error :=
  lit "Dependencies installation failed with code " ++ showCode code.

Definition setupBody (win32 : bool) : X SetupResult :=
  found <- ask (existsSync REGISTRY_DIR) ;;
  (if negb found
   then
     fs_mkdirSync REGISTRY_DIR ;;
     console_log "Created directory: " (lit ".oc-registry")
   else console_log "Registry directory exists: " (lit ".oc-registry")) ;;
  found <- ask (existsSync COMPONENTS_DIR) ;;
  (if negb found
   then
     fs_mkdirSync COMPONENTS_DIR ;;
     console_log "Created components directory" []
   else ret tt) ;;
  console_log "2. Installing OpenComponents CLI locally..." [] ;;
  code <- ask (npm (npmCmd win32) ["install"%string; "oc"%string] []) ;;
  (if isZero code
   then console_log "OpenComponents CLI installed locally" []
   else throw (installationFailed code)) ;;
  console_log "3. Creating registry configuration..." [] ;;
  fs_writeFileSync configPath RegistryConfig ;;
  console_log "Registry config created" [] ;;
  console_log "4. Creating registry startup script..." [] ;;
  fs_writeFileSync startupScriptPath StartupScript ;;
  console_log "Startup script created" [] ;;
  found <- ask (existsSync packagePath) ;;
  (if negb found
   then
     fs_writeFileSync packagePath RegistryPackageJson ;;
     console_log "Registry package.json created" []
   else ret tt) ;;
  console_log "5. Installing registry dependencies..." [] ;;
  code <- ask (npm (npmCmd win32) ["install"%string] REGISTRY_DIR) ;;
  (if isZero code
   then console_log "Registry dependencies installed" []
   else throw (dependenciesFailed code)) ;;
  console_log "OpenComponents Registry setup complete!" [] ;;
  ret {| registryDir := REGISTRY_DIR;
         componentsDir := COMPONENTS_DIR;
         port := 3030;
         url := lit "http://localhost:3030/" |}.

Definition setupOpenComponentsRegistry (win32 : bool) : X SetupResult :=
  console_log "Setting up local OpenComponents registry..." [] ;;
  try_catch (setupBody win32)
    (fun error =>
       console_error "Setup failed:" error ;;
       throw error).

(** [main] of the setup script (lines 434-442). *)
Definition setupMain (win32 : bool) : Proc unit :=
  bindP (setupOpenComponentsRegistry win32) (fun r =>
    match r with
    | inl error =>
        Say {| stream := stderr; text := "Setup failed:"; value := error |}
          (Quit 1)
    | inr _ => Quit 0
    end).

End Registry.

(** ** Watching the operations of a script *)

Module Watch.

Import Pipeline Registry.

Section Monitor.

(** A monitor reads the events of a run one by one; [None] is a
    violation. *)
Variable State : Type.
Variable step : State -> Event -> option State.

(** The state of the monitor after a trace, if it accepts it. *)
Fixpoint after (s : State) (tr : list Event) : option State :=
  match tr with
  | [] => Some s
  | ev :: tr' =>
      match step s ev with
      | Some s' => after s' tr'
      | None => None
      end
  end.

(** Every run of the script from state [s] is accepted by the monitor, and
    when the script returns [a] the monitor is in a state [s'] with
    [Q a s']. *)
Definition Sound {A : Type} (Q : A -> State -> Prop) (s : State) (p : Proc A)
  : Prop :=
  forall (World : Type) (handle : Handler World) (w : World),
    match after s (trace handle p w) with
    | Some s' =>
        match outcome handle p w with
        | Finished a => Q a s'
        | _ => True
        end
    | None => False
    end.

End Monitor.

(** *** The clean script *)

(** What the clean script may do: look at the file system, remove the
    components directory, the temporary directory and [node_modules],
    unlink the three log files, create the components directory again,
    and start two processes, the [netstat] port check and [npm install] in
    the registry directory. *)
Definition cleanMayDo (o : Op) : bool :=
  match o with
  | rmSync p =>
      path_eqb p COMPONENTS_DIR || path_eqb p tempDir || path_eqb p nodeModules
  | unlinkSync p => existsb (path_eqb p) possibleLogFiles
  | mkdirSync p => path_eqb p COMPONENTS_DIR
  | writeFileSync _ _ => false
  | npm command args cwd =>
      String.eqb command "npm"
      && (if list_eq_dec string_dec args ["install"%string] then true else false)
      && path_eqb cwd REGISTRY_DIR
  | setupScript => false
  | npmStart _ _ => false
  | netstat => true
  | existsSync _ | readdirSync _ | isDirectory _ | directorySize _ => true
  end.

Definition targetStep (s : unit) (ev : Event) : option unit :=
  match ev with
  | Said _ => Some tt
  | Did o _ => if cleanMayDo o then Some tt else None
  end.

(** Where the clean script is with respect to its two tests. *)
Inductive Gate : Type :=
| Start      (* nothing asked yet *)
| Absent     (* the registry directory does not exist *)
| Unchecked  (* the registry directory exists, the port is not checked yet *)
| InUse      (* the port check has shown port 3030 in use *)
| Free       (* the port check has come back otherwise *).

Definition isRegistryDirTest (o : Op) : bool :=
  match o with
  | existsSync p => path_eqb p REGISTRY_DIR
  | _ => false
  end.

Definition gateStep (s : Gate) (ev : Event) : option Gate :=
  match ev with
  | Said _ => Some s
  | Did o r =>
      match s with
      | Start =>
          match o return Resp o -> option Gate with
          | existsSync p =>
              fun r => if path_eqb p REGISTRY_DIR
                       then Some (if r then Unchecked else Absent)
                       else None
          | _ => fun _ => None
          end r
      | Absent => None
      | Unchecked =>
          match o return Resp o -> option Gate with
          | netstat => fun r => Some (if seenInUse r then InUse else Free)
          | o' => fun _ => if changes o' || isRegistryDirTest o' then None
                           else Some Unchecked
          end r
      | InUse => None
      | Free =>
          match o with
          | netstat => None
          | o' => if isRegistryDirTest o' then None else Some Free
          end
      end
  end.

End Watch.

(** ** Environments for the registry scripts *)

Module RegistryScenarios.

Import Pipeline Registry.

(** A line of [netstat -an] with a listener on port 3030, and one
    without. *)
Definition listening : jsstring :=
  lit "  TCP    0.0.0.0:3030           0.0.0.0:0              LISTENING".

Definition quiet : jsstring :=
  lit "  TCP    0.0.0.0:445            0.0.0.0:0              LISTENING".

(** Answers: which paths exist, what the port check gives, and the exit
    code of every child process. The components directory holds a
    directory [button] and a file [notes.txt]; no call of [fs] throws. *)
Definition answers (present : Path -> bool) (check : PortCheck)
  (code : option Z) : forall o : Op, Resp o :=
  fun o =>
    match o return Resp o with
    | existsSync p => present p
    | readdirSync _ => inr [lit "button"; lit "notes.txt"]
    | isDirectory p => inr (jsstring_eqb (last p []) (lit "button"))
    | directorySize _ => DirectorySize.Finite 4860
    | rmSync _ => inr tt
    | unlinkSync _ => inr tt
    | mkdirSync _ => inr tt
    | writeFileSync _ _ => inr tt
    | netstat => check
    | npm _ _ _ => code
    | setupScript => code
    | npmStart _ _ => ServerRuns
    end.

Definition everything : Path -> bool := fun _ => true.
Definition nothing : Path -> bool := fun _ => false.

(** Only the registry directory itself exists. *)
Definition bareDirectory : Path -> bool := fun p => path_eqb p REGISTRY_DIR.

End RegistryScenarios.

(** * Properties *)

Unset Implicit Arguments.

(** ** The component name *)

Section SlugFacts.

Import Slug.
Local Open Scope N_scope.

Lemma dropWhile_Forall {A} (P : A -> Prop) (p : A -> bool) (l : list A) :
  Forall P l -> Forall P (dropWhile p l).
Proof.
  induction 1 as [|x l Hx Hl IH]; simpl; [constructor|].
  destruct (p x); [exact IH | constructor; assumption].
Qed.

Lemma dropWhile_length {A} (p : A -> bool) (l : list A) :
  (List.length (dropWhile p l) <= List.length l)%nat.
Proof.
  induction l as [|x l IH]; simpl; [lia|].
  destruct (p x); simpl; lia.
Qed.

Lemma dropWhileEnd_Forall {A} (P : A -> Prop) (p : A -> bool) (l : list A) :
  Forall P l -> Forall P (dropWhileEnd p l).
Proof.
  intros H. unfold dropWhileEnd.
  apply Forall_rev, dropWhile_Forall, Forall_rev, H.
Qed.

Lemma dropWhileEnd_length {A} (p : A -> bool) (l : list A) :
  (List.length (dropWhileEnd p l) <= List.length l)%nat.
Proof.
  unfold dropWhileEnd. rewrite length_rev.
  etransitivity; [apply dropWhile_length|]. rewrite length_rev. lia.
Qed.

Lemma firstn_Forall {A} (P : A -> Prop) (n : nat) (l : list A) :
  Forall P l -> Forall P (firstn n l).
Proof.
  intros H. revert n.
  induction H as [|x l Hx Hl IH]; intros [|n]; simpl; constructor; auto.
Qed.

Lemma trimHyphens_Forall (P : N -> Prop) (s : jsstring) :
  Forall P s -> Forall P (trimHyphens s).
Proof.
  intros H. apply dropWhileEnd_Forall, dropWhile_Forall, H.
Qed.

Lemma trimHyphens_length (s : jsstring) :
  (List.length (trimHyphens s) <= List.length s)%nat.
Proof.
  unfold trimHyphens.
  etransitivity; [apply dropWhileEnd_length | apply dropWhile_length].
Qed.

Lemma removeSpecialChars_kept (s : jsstring) :
  Forall (fun c => isLowerAlnum c || isWhiteSpace c || isHyphen c = true)
         (removeSpecialChars s).
Proof.
  unfold removeSpecialChars. apply Forall_forall. intros c Hc.
  apply filter_In in Hc. apply Hc.
Qed.

Lemma spacesToHyphens_slug (s : jsstring) (inRun : bool) :
  Forall (fun c => isLowerAlnum c || isWhiteSpace c || isHyphen c = true) s ->
  Forall (fun c => isSlugChar c = true) (spacesToHyphens_from inRun s).
Proof.
  intros H. revert inRun.
  induction H as [|c s Hc Hs IH]; intros inRun; simpl; [constructor|].
  destruct (isWhiteSpace c) eqn:Hw.
  - destruct inRun; [apply IH|]. constructor; [reflexivity | apply IH].
  - constructor; [|apply IH].
    unfold isSlugChar. rewrite orb_false_r in Hc. exact Hc.
Qed.

Lemma isSlugChar_not_upper (c : N) : isSlugChar c = true -> isUpper c = false.
Proof.
  unfold isSlugChar, isLowerAlnum, isHyphen, hyphen, isUpper. intros H.
  destruct (65 <=? c) eqn:E1; [|reflexivity].
  destruct (c <=? 90) eqn:E2; [|reflexivity].
  apply N.leb_le in E1, E2.
  rewrite !orb_true_iff, !andb_true_iff, !N.leb_le, N.eqb_eq in H. lia.
Qed.

Lemma derive_slug (toLowerCase : jsstring -> jsstring) (p : jsstring) :
  Forall (fun c => isSlugChar c = true) (derive toLowerCase p) /\
  (List.length (derive toLowerCase p) <= 30)%nat.
Proof.
  unfold derive, limitLength, spacesToHyphens. split.
  - apply trimHyphens_Forall, firstn_Forall, spacesToHyphens_slug,
      removeSpecialChars_kept.
  - etransitivity; [apply trimHyphens_length|]. apply firstn_le_length.
Qed.

Lemma fallbackName_slug :
  Forall (fun c => isSlugChar c = true) fallbackName /\
  (List.length fallbackName <= 30)%nat /\ fallbackName <> [].
Proof.
  split; [|split].
  - vm_compute. repeat constructor.
  - vm_compute. lia.
  - discriminate.
Qed.

(** C2. For every prompt, given or not, and whatever the case mapping of
    the host, the component name is made of the characters [a-z0-9-] only
    (so it has no upper-case letter), is at most 30 code units long and is
    not empty; it is the fallback name [generated-component] when no prompt
    is given, when the prompt is empty and when the derivation leaves
    nothing, and the derived slug otherwise. *)
Theorem componentName_wellformed
  (toLowerCase : jsstring -> jsstring) (prompt : option jsstring) :
  let name := componentName toLowerCase prompt in
  Forall (fun c => isSlugChar c = true) name /\
  Forall (fun c => isUpper c = false) name /\
  (List.length name <= 30)%nat /\
  name <> [] /\
  name = match prompt with
         | None => lit "generated-component"
         | Some p =>
             if falsy p then lit "generated-component"
             else if falsy (derive toLowerCase p) then lit "generated-component"
             else derive toLowerCase p
         end.
Proof.
  assert (Hname : componentName toLowerCase prompt =
                  match prompt with
                  | None => fallbackName
                  | Some p =>
                      if falsy p then fallbackName
                      else if falsy (derive toLowerCase p) then fallbackName
                      else derive toLowerCase p
                  end).
  { unfold componentName, defaultComponentName, or_else.
    destruct prompt as [p|]; [|reflexivity].
    destruct (falsy p); [reflexivity|].
    destruct (falsy (derive toLowerCase p)); reflexivity. }
  assert (Hslug : Forall (fun c => isSlugChar c = true)
                    (componentName toLowerCase prompt) /\
                  (List.length (componentName toLowerCase prompt) <= 30)%nat /\
                  componentName toLowerCase prompt <> []).
  { rewrite Hname. pose proof fallbackName_slug as Hf.
    destruct prompt as [p|]; [|exact Hf].
    destruct (falsy p); [exact Hf|].
    pose proof (derive_slug toLowerCase p) as [H1 H2].
    destruct (derive toLowerCase p) as [|c s]; simpl; [exact Hf|].
    split; [exact H1 | split; [exact H2 | discriminate]]. }
  cbv zeta. destruct Hslug as (H1 & H2 & H3).
  split; [exact H1 | split; [| split; [exact H2 | split; [exact H3 | exact Hname]]]].
  eapply Forall_impl; [|exact H1]. apply isSlugChar_not_upper.
Qed.

Example slug_button :
  componentName asciiToLowerCase (Some (lit "Create a button component"))
    = lit "create-a-button-component".
Proof. vm_compute. reflexivity. Qed.

Example slug_truncated :
  componentName asciiToLowerCase (Some Cli.defaultPrompt)
    = lit "create-a-beautiful-modern-butt".
Proof. vm_compute. reflexivity. Qed.

Example slug_trimmed_after_truncation :
  componentName asciiToLowerCase (Some (lit "Navigation menu for the shop -- dark"))
    = lit "navigation-menu-for-the-shop".
Proof. vm_compute. reflexivity. Qed.

Example slug_inner_hyphens_kept :
  componentName asciiToLowerCase (Some (lit "A data table with sorting - v2"))
    = lit "a-data-table-with-sorting---v2".
Proof. vm_compute. reflexivity. Qed.

Example slug_nothing_left :
  componentName asciiToLowerCase (Some (lit "!!! ???")) = lit "generated-component".
Proof. vm_compute. reflexivity. Qed.

End SlugFacts.

(** ** The command line *)

Section CliFacts.

Import Cli.
Local Open Scope N_scope.

Ltac peel s :=
  destruct s as [|? s]; [try discriminate | cbn [matchAtoms matchAtom matchHex]].

Ltac split_test :=
  match goal with
  | |- context [if isHexDigit ?c then _ else _] =>
      let E := fresh "Hx" in destruct (isHexDigit c) eqn:E; [|discriminate]
  | |- context [if ?c =? 45 then _ else _] =>
      let E := fresh "Hd" in
      destruct (c =? 45) eqn:E; [apply N.eqb_eq in E|discriminate]
  end.

Ltac instantiate_positions H n :=
  match n with
  | O => idtac
  | S ?m => pose proof (H m _ eq_refl); instantiate_positions H m
  end.

(** The matcher accepts a string exactly when it has the shape the pattern
    describes. *)
Lemma uuidRegex_test_spec (s : jsstring) :
  uuidRegex_test s = true <-> UuidShaped s.
Proof.
  unfold uuidRegex_test, uuidRegex, UuidShaped. split.
  - cbn [matchAtoms matchAtom matchHex].
    do 36 (peel s; split_test).
    destruct s; [|discriminate]. intros _. split; [reflexivity|].
    intros i c Hi.
    do 36 (destruct i as [|i];
           [injection Hi as <-; cbn; assumption|]).
    destruct i; discriminate.
  - intros [Hlen H].
    do 36 (destruct s as [|? s]; [discriminate|]).
    destruct s; [|discriminate]. clear Hlen.
    instantiate_positions H 36%nat. clear H.
    cbn in *. subst.
    repeat (first [ rewrite N.eqb_refl
                  | match goal with
                    | Hh : isHexDigit ?c = true |- context [isHexDigit ?c] =>
                        rewrite Hh; clear Hh
                    end ];
            cbn [matchAtoms matchAtom matchHex]).
    reflexivity.
Qed.

(** C9. With no argument the configuration has no sandbox id and the
    default prompt. When the first argument has the UUID shape it is the
    sandbox id and the other arguments joined by spaces are the prompt;
    when it has not, no sandbox id is set and all the arguments joined by
    spaces are the prompt. In each case an empty prompt is replaced by the
    default prompt. *)
Theorem main_arguments (args : list jsstring) :
  match args with
  | [] => configuration args = (None, defaultPrompt)
  | first :: others =>
      (UuidShaped first ->
       configuration args =
       (Some first,
        if falsy (join_space others) then defaultPrompt else join_space others))
      /\
      (~ UuidShaped first ->
       configuration args =
       (None,
        if falsy (join_space args) then defaultPrompt else join_space args))
  end.
Proof.
  destruct args as [|first others]; [reflexivity|].
  unfold configuration, parseArguments. split; intros H.
  - apply uuidRegex_test_spec in H. rewrite H. reflexivity.
  - destruct (uuidRegex_test first) eqn:E.
    + apply uuidRegex_test_spec in E. contradiction.
    + reflexivity.
Qed.

Lemma main_arguments_witness :
  configuration [sampleUuid; lit "a"; lit "red"; lit "card"]
    = (Some sampleUuid, lit "a red card") /\
  configuration [sampleUuid] = (Some sampleUuid, defaultPrompt) /\
  configuration [lit "a"; lit "red"; lit "card"] = (None, lit "a red card").
Proof.
  split; [|split].
  - apply (proj1 (main_arguments [sampleUuid; lit "a"; lit "red"; lit "card"])).
    apply uuidRegex_test_spec. vm_compute. reflexivity.
  - apply (proj1 (main_arguments [sampleUuid])).
    apply uuidRegex_test_spec. vm_compute. reflexivity.
  - apply (proj2 (main_arguments [lit "a"; lit "red"; lit "card"])).
    intros H. apply uuidRegex_test_spec in H. vm_compute in H. discriminate.
Defined.

End CliFacts.

(** ** Every path of the pipeline *)

Section EveryPath.

Import Pipeline Safety.

Lemma Always_bindP (P : Event -> Prop) {A B} (p : Prog A) (f : A -> Prog B) :
  Always P p -> (forall a, Always P (f a)) -> Always P (bindP p f).
Proof.
  intros Hp Hf. induction Hp; simpl.
  - apply Hf.
  - constructor.
  - constructor; assumption.
  - constructor; auto.
Qed.

Lemma Always_interrupted (P : Event -> Prop) {A} (n : nat) (p : Prog A) :
  P (Printed sigintLine) -> Always P p -> Always P (interrupted n p).
Proof.
  intros Hs Hp. revert n.
  induction Hp; intros [|n]; simpl;
    try (constructor; [exact Hs | constructor]);
    constructor; auto.
Qed.

Lemma Always_run (P : Event -> Prop) {A} (p : Prog A) :
  Always P p ->
  forall World (handle : Handler World) (w : World),
    Forall P (trace handle p w).
Proof.
  intros Hp World handle. unfold trace.
  induction Hp as [a|c|l k Hl Hk IH|o k Ho Hk IH]; intros w; simpl.
  - constructor.
  - constructor.
  - specialize (IH w). destruct (run handle k w) as [[out tr] w'].
    simpl in *. constructor; assumption.
  - destruct (handle o w) as [r w1].
    specialize (IH r w1). destruct (run handle (k r) w1) as [[out tr] w2].
    simpl in *. constructor; [apply Ho | assumption].
Qed.

Lemma Forall_calls (tr : list Event) :
  Forall keepsSandbox tr -> Forall (fun o => isTeardown o = false) (calls tr).
Proof.
  induction 1 as [|ev tr Hev Htr IH]; simpl; [constructor|].
  destruct ev; [assumption | constructor; assumption].
Qed.

Lemma Forall_executions (tr : list Event) :
  Forall timeoutAsListed tr ->
  Forall (fun x => x_timeout x = timeoutArgument (x_command x)) (executions tr).
Proof.
  induction 1 as [|ev tr Hev Htr IH]; simpl; [constructor|].
  unfold timeoutAsListed in Hev.
  destruct (execution_of ev); [constructor|]; assumption.
Qed.

Ltac unfold_script :=
  unfold main, generateOpenComponentInDaytona, try_catch, tryBlock, catchBlock,
    acquireSandbox, when, bind, await, console_log, console_error, process_exit,
    get, set_sandbox, set_sandboxId, set_componentName, ret, throw.

Ltac walk :=
  repeat match goal with
         | |- Always _ (Ret _) => constructor
         | |- Always _ (Exit _) => constructor
         | |- Always _ (Print _ _) => constructor; [exact I|]
         | |- Always _ (Await _ _) =>
             constructor; [intros ?; reflexivity | intros [?|?]; cbn]
         | |- Always _ _ => progress cbn
         | |- Always _ ?p =>
             match p with
             | context [if ?b then _ else _] => destruct b; cbn
             | context [match ?x with Some _ => _ | None => _ end] =>
                 destruct x; cbn
             end
         end.

Lemma generate_keepsSandbox toLowerCase env sandboxIdArg prompt :
  Always keepsSandbox
    (generateOpenComponentInDaytona toLowerCase env sandboxIdArg prompt).
Proof.
  unfold_script. walk.
Qed.

Lemma generate_timeoutAsListed toLowerCase env sandboxIdArg prompt :
  Always timeoutAsListed
    (generateOpenComponentInDaytona toLowerCase env sandboxIdArg prompt).
Proof.
  unfold_script. walk.
Qed.

Lemma main_keepsSandbox toLowerCase env args :
  Always keepsSandbox (main toLowerCase env args).
Proof.
  unfold main. do 3 (constructor; [exact I|]).
  apply Always_bindP; [apply generate_keepsSandbox|].
  intros [e|r]; repeat constructor.
Qed.

(** C7. Whatever the environment answers, neither a run of the pipeline
    function nor a run of the entry point, run to its end or interrupted by
    SIGINT after any number of steps, ever calls an operation that deletes
    or stops a sandbox. *)
Theorem sandbox_never_torn_down
  (toLowerCase : jsstring -> jsstring) (env : ProcessEnv)
  (sandboxIdArg prompt : option jsstring) (args : list jsstring) (n : nat)
  (World : Type) (handle : Handler World) (w : World) :
  Forall (fun o => isTeardown o = false)
    (calls (trace handle
              (generateOpenComponentInDaytona toLowerCase env sandboxIdArg prompt) w))
  /\ Forall (fun o => isTeardown o = false)
    (calls (trace handle (main toLowerCase env args) w))
  /\ Forall (fun o => isTeardown o = false)
    (calls (trace handle (interrupted n (main toLowerCase env args)) w)).
Proof.
  split; [|split]; apply Forall_calls, Always_run.
  - apply generate_keepsSandbox.
  - apply main_keepsSandbox.
  - apply Always_interrupted; [exact I | apply main_keepsSandbox].
Qed.

(** C8, as amended. Whatever the environment answers, every command the
    pipeline sends carries the timeout argument listed in
    [timeoutArgument]: 180 s for each tooling install, for the build and
    for the publish command, 600 s for the generation command, and no
    timeout argument for the scaffold command, for the command that writes
    the generation script, for the listing, for the verbose rebuild, for
    the registry probe and for the verification probe. *)
Theorem timeouts_as_listed
  (toLowerCase : jsstring -> jsstring) (env : ProcessEnv)
  (sandboxIdArg prompt : option jsstring)
  (World : Type) (handle : Handler World) (w : World) :
  Forall (fun x => x_timeout x = timeoutArgument (x_command x))
    (executions (trace handle
       (generateOpenComponentInDaytona toLowerCase env sandboxIdArg prompt) w)).
Proof.
  apply Forall_executions, Always_run, generate_timeoutAsListed.
Qed.

(** C8 as stated fails: in a run where everything works, the scaffold
    command and the verification probe are sent without a timeout. *)
Lemma scaffold_and_probe_without_timeout :
  let tr := snd (fst (Sim.runButton Sim.allGood)) in
  In {| x_sandbox := Sim.created Sim.allGood;
        x_command := OcInit (lit "create-a-button-component");
        x_cwd := lit "/home/daytona";
        x_env := None;
        x_timeout := None;
        x_response := inr (Sim.ok "done") |} (executions tr) /\
  In {| x_sandbox := Sim.created Sim.allGood;
        x_command :=
          CurlComponent
            (lit "http://host.docker.internal:3030create-a-button-component");
        x_cwd := lit "/home/daytona/create-a-button-component";
        x_env := None;
        x_timeout := None;
        x_response := inr (Sim.ok "done") |} (executions tr) /\
  ~ Forall (fun x => x_timeout x <> None) (executions tr).
Proof.
  vm_compute. split; [|split].
  - do 2 right. left. reflexivity.
  - do 8 right. left. reflexivity.
  - intros H. inversion H as [|? ? _ Ha]. inversion Ha as [|? ? _ Hb].
    inversion Hb as [|? ? Hinit _]. apply Hinit. reflexivity.
Qed.

End EveryPath.

(** ** Runs of the pipeline against an arbitrary environment *)

Section Runs.

Import Pipeline Safety.

Variable toLowerCase : jsstring -> jsstring.
Variable World : Type.
Variable handle : Handler World.

Arguments Slug.componentName : simpl never.
Arguments falsy_opt : simpl never.

Ltac unfold_script :=
  unfold outcome, trace, main, generateOpenComponentInDaytona, try_catch,
    tryBlock, catchBlock, acquireSandbox, when, bind, await, console_log,
    console_error, process_exit, get, set_sandbox, set_sandboxId,
    set_componentName, ret, throw.

(** Take the next answer of the environment, or the next test of an exit
    code. *)
Ltac answer :=
  match goal with
  | |- context [handle ?o ?w] =>
      let e := fresh "e" in
      let r := fresh "r" in
      let w' := fresh "w" in
      destruct (handle o w) as [[e|r] w']; cbn
  | E : Z.eqb (exitCode ?r) 0 = _ |- context [Z.eqb (exitCode ?r) 0] =>
      rewrite E; cbn
  | |- context [Z.eqb (exitCode ?r) 0] =>
      let E := fresh "E" in
      destruct (Z.eqb (exitCode r) 0) eqn:E; cbn
  end.

Lemma jsstring_eqb_eq (a b : jsstring) : jsstring_eqb a b = true <-> a = b.
Proof.
  revert b. induction a as [|x a IH]; intros [|y b]; simpl;
    try (split; [discriminate | discriminate]); [tauto|].
  rewrite andb_true_iff, N.eqb_eq, IH. split.
  - intros [-> ->]. reflexivity.
  - intros H. injection H as -> ->. split; reflexivity.
Qed.

Lemma find_unknown (sandboxId : jsstring) (sandboxes : list Sandbox) :
  (forall s, In s sandboxes -> id s <> sandboxId) ->
  find (fun s => jsstring_eqb (id s) sandboxId) sandboxes = None.
Proof.
  intros H. induction sandboxes as [|s l IH]; simpl; [reflexivity|].
  destruct (jsstring_eqb (id s) sandboxId) eqn:E.
  - apply jsstring_eqb_eq in E. exfalso. apply (H s); [left; reflexivity | exact E].
  - apply IH. intros s' Hs'. apply H. right. exact Hs'.
Qed.

Lemma falsy_opt_unset (v : option jsstring) : v = None -> falsy_opt v = true.
Proof. intros ->. reflexivity. Qed.

(** C10. When [DAYTONA_API_KEY] or [ANTHROPIC_API_KEY] is unset, the
    pipeline function prints its error line and ends the process with exit
    code 1 without calling any operation of the provider or of a sandbox,
    and leaves the world as it was; so does the entry point. *)
Theorem missing_key_exits
  (env : ProcessEnv) (sandboxIdArg prompt : option jsstring)
  (args : list jsstring) (w : World) :
  DAYTONA_API_KEY env = None \/ ANTHROPIC_API_KEY env = None ->
  run handle (generateOpenComponentInDaytona toLowerCase env sandboxIdArg prompt) w
    = (Exited 1,
       [Printed {| stream := stderr;
                   text := "ERROR: DAYTONA_API_KEY and ANTHROPIC_API_KEY must be set";
                   value := [] |}],
       w)
  /\ outcome handle (main toLowerCase env args) w = Exited 1
  /\ calls (trace handle (main toLowerCase env args) w) = []
  /\ snd (run handle (main toLowerCase env args) w) = w.
Proof.
  intros H.
  assert (Hk : falsy_opt (DAYTONA_API_KEY env)
               || falsy_opt (ANTHROPIC_API_KEY env) = true).
  { apply orb_true_iff.
    destruct H as [H|H]; [left|right]; apply falsy_opt_unset, H. }
  unfold_script. rewrite Hk. cbn. repeat split.
Qed.

(** C5. With both keys set, a run given a sandbox id that none of the
    sandboxes returned by the provider's list operation has fails with the
    error [Sandbox <id> not found]; the list operation is the only
    operation called, so no command at all is sent to any sandbox. *)
Theorem unknown_sandbox_fails
  (env : ProcessEnv) (sandboxId : jsstring) (prompt : option jsstring)
  (w w' : World) (sandboxes : list Sandbox) :
  falsy_opt (DAYTONA_API_KEY env) = false ->
  falsy_opt (ANTHROPIC_API_KEY env) = false ->
  sandboxId <> [] ->
  handle daytona_list w = (inr sandboxes, w') ->
  (forall s, In s sandboxes -> id s <> sandboxId) ->
  let p := generateOpenComponentInDaytona toLowerCase env (Some sandboxId) prompt in
  outcome handle p w = Returned (inl (lit "Sandbox " ++ sandboxId ++ lit " not found"))
  /\ calls (trace handle p w) = [daytona_list]
  /\ executions (trace handle p w) = [].
Proof.
  intros Hd Ha Hid Hlist Hnone. cbv zeta.
  unfold_script. rewrite Hd, Ha.
  destruct sandboxId as [|c s]; [contradiction|].
  cbn. change (falsy_opt (Some (c :: s))) with false.
  cbn. rewrite Hlist. cbn.
  rewrite (find_unknown (c :: s) sandboxes Hnone). cbn.
  repeat split.
Qed.

Lemma button_name :
  toLowerCase (lit "Create a button component") = lit "create a button component" ->
  Slug.componentName toLowerCase (Some (lit "Create a button component"))
    = lit "create-a-button-component".
Proof.
  intros H. unfold Slug.componentName, Slug.defaultComponentName, Slug.derive.
  change (falsy (lit "Create a button component")) with false. cbv iota.
  rewrite H. vm_compute. reflexivity.
Qed.

(** C6. With both keys set and no sandbox id, a run on the prompt
    [Create a button component] that returns has first created a new
    sandbox (it never lists the existing ones), has scaffolded the
    component [create-a-button-component], and returns a result with
    [success = true], that component name, the id of the created sandbox,
    and [componentUrl] equal to the registry base URL followed by
    [create-a-button-component]. *)
Theorem button_prompt_end_to_end
  (env : ProcessEnv) (w w' : World) (tr : list Event) (res : PipelineResult) :
  falsy_opt (DAYTONA_API_KEY env) = false ->
  falsy_opt (ANTHROPIC_API_KEY env) = false ->
  toLowerCase (lit "Create a button component") = lit "create a button component" ->
  run handle
    (generateOpenComponentInDaytona toLowerCase env None
       (Some (lit "Create a button component"))) w
    = (Returned (inr res), tr, w') ->
  hd_error (calls tr) = Some (daytona_create true (lit "node:20"))
  /\ ~ In daytona_list (calls tr)
  /\ (exists created, In (Called (daytona_create true (lit "node:20")) (inr created)) tr
                      /\ sandboxId res = Some (id created))
  /\ issued (fun c => match c with
                      | OcInit name => jsstring_eqb name (lit "create-a-button-component")
                      | _ => false
                      end) tr = true
  /\ success res = true
  /\ componentName res = lit "create-a-button-component"
  /\ componentUrl res = REGISTRY_URL ++ lit "create-a-button-component"
  /\ registryUrl res = REGISTRY_URL.
Proof.
  intros Hd Ha Hlower. revert res tr w'.
  unfold_script. rewrite Hd, Ha, (button_name Hlower). cbn.
  change (falsy_opt None) with true. cbn.
  repeat answer; intros res tr w' H; try discriminate H.
  injection H as <- <- <-. cbn.
  split; [reflexivity|].
  split; [intros Hin; repeat (destruct Hin as [Hin|Hin]; [discriminate Hin|]);
          exact Hin|].
  split; [eexists; split; [right; left; reflexivity | reflexivity]|].
  repeat split.
Qed.

(** C1, as amended. Whatever the environment answers, a build command is
    sent exactly when the generation command has come back with exit code
    0 and the listing command that follows it has come back. The view file
    and the manifest are tested only by the generation script inside the
    sandbox, and what the test finds has no effect on the script's exit
    code: the code is the same for any other content of the directory, as
    long as node loads the script the same way, the session ends the same
    way and the log file and the listing succeed or fail alike. When the
    test is reached, the warning is printed exactly when the view file or
    the manifest is missing, and the exit code is 0 all the same. *)
Theorem build_follows_generation_exit_code
  (env : ProcessEnv) (sandboxIdArg prompt : option jsstring) (w : World)
  (loading : GenerationScript.Loading) (session : GenerationScript.Session)
  (disk : GenerationScript.Disk) (other : GenerationScript.Files)
  (messages : nat) (dir : GenerationScript.Files) :
  let tr := trace handle
              (generateOpenComponentInDaytona toLowerCase env sandboxIdArg prompt) w in
  let elsewhere :=
    {| GenerationScript.entries := other;
       GenerationScript.logWritable := GenerationScript.logWritable disk;
       GenerationScript.listable := GenerationScript.listable disk |} in
  let reached :=
    GenerationScript.generateOpenComponent GenerationScript.Loads
      (GenerationScript.SessionEnded messages) (GenerationScript.healthy dir) in
  issued isBuild tr = succeeded isGenerate tr && answered isListing tr
  /\ GenerationScript.exit_code
       (GenerationScript.generateOpenComponent loading session disk)
     = GenerationScript.exit_code
         (GenerationScript.generateOpenComponent loading session elsewhere)
  /\ GenerationScript.warned reached = negb (GenerationScript.complete dir)
  /\ GenerationScript.exit_code reached = 0%Z.
Proof.
  cbv zeta. split; [|split; [|split]].
  - unfold_script.
    destruct (falsy_opt (DAYTONA_API_KEY env) || falsy_opt (ANTHROPIC_API_KEY env));
      [reflexivity|].
    cbn. destruct (falsy_opt sandboxIdArg); cbn.
    + repeat answer; reflexivity.
    + answer; [reflexivity|].
      destruct (find _ _); cbn; [|reflexivity].
      repeat answer; reflexivity.
  - unfold GenerationScript.generateOpenComponent.
    destruct loading; [reflexivity | reflexivity |].
    destruct session; [|reflexivity].
    cbn [GenerationScript.logWritable GenerationScript.listable].
    destruct (GenerationScript.logWritable disk); [|reflexivity].
    destruct (GenerationScript.listable disk); reflexivity.
  - unfold GenerationScript.generateOpenComponent, GenerationScript.healthy,
      GenerationScript.complete, GenerationScript.existsSync,
      GenerationScript.logFile.
    cbn [GenerationScript.entries GenerationScript.logWritable
         GenerationScript.listable negb].
    destruct (existsb (jsstring_eqb (lit "generation-log.json")) dir); cbn.
    + rewrite negb_andb. reflexivity.
    + rewrite negb_andb. reflexivity.
  - reflexivity.
Qed.

Ltac find_in := repeat (first [left; reflexivity | right]).

(** C3, as amended. Whatever the environment answers, when the publish
    command comes back with a non-zero exit code the pipeline sends the
    probe of the registry base URL and the run fails; when the probe comes
    back, its output is printed after [Registry check:] and the error is
    [Component publish failed - check if registry is running], whatever
    the probe has answered. *)
Theorem publish_failure_single_error
  (env : ProcessEnv) (sandboxIdArg prompt : option jsstring) (w : World) :
  let p := generateOpenComponentInDaytona toLowerCase env sandboxIdArg prompt in
  exitedNonZero isPublish (trace handle p w) = true ->
  issued (fun c => match c with
                   | CurlRegistry url => jsstring_eqb url REGISTRY_URL
                   | _ => false
                   end) (trace handle p w) = true
  /\ (exists e, outcome handle p w = Returned (inl e))
  /\ (answered isRegistryProbe (trace handle p w) = true ->
      outcome handle p w
        = Returned (inl (lit "Component publish failed - check if registry is running"))
      /\ probeReports (trace handle p w) <> []
      /\ incl (probeReports (trace handle p w)) (printed (trace handle p w))).
Proof.
  cbv zeta. unfold_script.
  destruct (falsy_opt (DAYTONA_API_KEY env) || falsy_opt (ANTHROPIC_API_KEY env));
    [discriminate|].
  assert (Hleaf : forall l : LogLine, forall ls : list LogLine,
             In l ls -> incl [l] ls).
  { intros l ls Hl x [<-|[]]. exact Hl. }
  cbn. destruct (falsy_opt sandboxIdArg); cbn.
  - repeat answer; intros H; try discriminate H;
      (split; [reflexivity|]); (split; [eexists; reflexivity|]);
      intros Hp; try discriminate Hp;
      (split; [reflexivity|]); (split; [discriminate|]);
      apply Hleaf; find_in.
  - answer; [discriminate|].
    destruct (find _ _); cbn; [|discriminate].
    repeat answer; intros H; try discriminate H;
      (split; [reflexivity|]); (split; [eexists; reflexivity|]);
      intros Hp; try discriminate Hp;
      (split; [reflexivity|]); (split; [discriminate|]);
      apply Hleaf; find_in.
Qed.

(** The install of the OpenComponents CLI is checked: when it comes back
    with a non-zero exit code, the run fails with
    [Failed to install OpenComponents CLI]; the agent SDK is not installed
    and nothing is scaffolded. *)
Lemma cli_install_failure_halts
  (env : ProcessEnv) (sandboxIdArg prompt : option jsstring) (w : World) :
  let p := generateOpenComponentInDaytona toLowerCase env sandboxIdArg prompt in
  exitedNonZero isCliInstall (trace handle p w) = true ->
  outcome handle p w = Returned (inl (lit "Failed to install OpenComponents CLI"))
  /\ issued isSdkInstall (trace handle p w) = false
  /\ issued isInit (trace handle p w) = false.
Proof.
  cbv zeta. unfold_script.
  destruct (falsy_opt (DAYTONA_API_KEY env) || falsy_opt (ANTHROPIC_API_KEY env));
    [discriminate|].
  cbn. destruct (falsy_opt sandboxIdArg); cbn.
  - repeat answer; intros H; try discriminate H; repeat split.
  - answer; [discriminate|].
    destruct (find _ _); cbn; [|discriminate].
    repeat answer; intros H; try discriminate H; repeat split.
Qed.

End Runs.

(** ** Runs against the simulated sandbox *)

Section Scenarios.

Import Pipeline Safety GenerationScript.

Lemma missing_key_exits_witness :
  DAYTONA_API_KEY Sim.noDaytonaKey = None /\
  outcome (Sim.handle Sim.oneKnown)
    (main asciiToLowerCase Sim.noDaytonaKey [Cli.sampleUuid; lit "a"; lit "card"])
    [] = Exited 1 /\
  calls (trace (Sim.handle Sim.oneKnown)
           (main asciiToLowerCase Sim.noDaytonaKey
              [Cli.sampleUuid; lit "a"; lit "card"]) []) = [].
Proof.
  split; [reflexivity|].
  pose proof (missing_key_exits asciiToLowerCase Files (Sim.handle Sim.oneKnown)
                Sim.noDaytonaKey None None
                [Cli.sampleUuid; lit "a"; lit "card"] []
                (or_introl eq_refl)) as (_ & H1 & H2 & _).
  split; [exact H1 | exact H2].
Defined.

Lemma unknown_sandbox_fails_witness :
  outcome (Sim.handle Sim.oneKnown)
    (generateOpenComponentInDaytona asciiToLowerCase Sim.keys
       (Some Cli.sampleUuid) (Some Sim.buttonPrompt)) []
    = Returned (inl (lit "Sandbox 123e4567-e89b-12d3-A456-426614174000 not found"))
  /\ executions (trace (Sim.handle Sim.oneKnown)
       (generateOpenComponentInDaytona asciiToLowerCase Sim.keys
          (Some Cli.sampleUuid) (Some Sim.buttonPrompt)) []) = [].
Proof.
  assert (Hnone : forall s, In s (Sim.known Sim.oneKnown) -> id s <> Cli.sampleUuid).
  { intros s [<-|[]]. vm_compute. discriminate. }
  pose proof (unknown_sandbox_fails asciiToLowerCase Files (Sim.handle Sim.oneKnown)
                Sim.keys Cli.sampleUuid (Some Sim.buttonPrompt) [] []
                (Sim.known Sim.oneKnown) eq_refl eq_refl
                ltac:(vm_compute; discriminate) eq_refl Hnone) as (H1 & _ & H3).
  split; [exact H1 | exact H3].
Defined.

Lemma button_prompt_end_to_end_witness :
  exists res tr dir,
    Sim.runButton Sim.allGood = (Returned (inr res), tr, dir)
    /\ success res = true
    /\ componentName res = lit "create-a-button-component"
    /\ componentUrl res
       = lit "http://host.docker.internal:3030create-a-button-component".
Proof.
  do 3 eexists.
  split; [vm_compute; reflexivity|].
  pose proof (button_prompt_end_to_end asciiToLowerCase Files
                (Sim.handle Sim.allGood) Sim.keys [] _ _ _
                eq_refl eq_refl eq_refl
                ltac:(vm_compute; reflexivity))
    as (_ & _ & _ & _ & H1 & H2 & H3 & _).
  split; [exact H1|]. split; [exact H2|]. rewrite H3. vm_compute. reflexivity.
Defined.

Lemma publish_failure_single_error_witness :
  exitedNonZero isPublish (snd (fst (Sim.runButton Sim.registryDown))) = true /\
  fst (fst (Sim.runButton Sim.registryDown))
    = Returned (inl (lit "Component publish failed - check if registry is running")).
Proof.
  split; [vm_compute; reflexivity|].
  pose proof (publish_failure_single_error asciiToLowerCase Files
                (Sim.handle Sim.registryDown) Sim.keys None
                (Some Sim.buttonPrompt) []
                ltac:(vm_compute; reflexivity)) as (_ & _ & H).
  exact (proj1 (H ltac:(vm_compute; reflexivity))).
Defined.

(** The exit codes of the generation script: 1 when node cannot load it,
    when the session throws, when the log cannot be written or the
    directory cannot be listed; 0 when the function throws before its
    [try] block, whose rejection is only printed. *)
Example generation_script_exit_codes (dir : Files) (error : Error) (messages : nat) :
  exit_code (generateOpenComponent FailsToLoad (SessionEnded messages) (healthy dir)) = 1%Z
  /\ exit_code (generateOpenComponent (ThrowsEarly error) (SessionEnded messages)
                  (healthy dir)) = 0%Z
  /\ exit_code (generateOpenComponent Loads (SessionThrew error) (healthy dir)) = 1%Z
  /\ exit_code (generateOpenComponent Loads (SessionEnded messages)
                  {| entries := dir; logWritable := false; listable := true |}) = 1%Z
  /\ exit_code (generateOpenComponent Loads (SessionEnded messages)
                  {| entries := dir; logWritable := true; listable := false |}) = 1%Z.
Proof. repeat split. Qed.

(** C1 as stated fails: the agent session ends normally after the view
    file has been removed; the generation script warns and exits with code
    0, the build command is sent, and the run returns a success. *)
Lemma build_sent_for_incomplete_artifact :
  complete (files (generateOpenComponent Loads (Sim.session Sim.viewRemoved)
                     (healthy (Sim.edited Sim.viewRemoved)))) = false /\
  complete (snd (Sim.runButton Sim.viewRemoved)) = false /\
  issued isBuild (snd (fst (Sim.runButton Sim.viewRemoved))) = true /\
  exists res,
    fst (fst (Sim.runButton Sim.viewRemoved)) = Returned (inr res)
    /\ success res = true.
Proof.
  split; [vm_compute; reflexivity|].
  split; [vm_compute; reflexivity|].
  split; [vm_compute; reflexivity|].
  eexists. split; [vm_compute; reflexivity | reflexivity].
Qed.

(** C3 as stated fails: a run whose probe cannot reach the registry and a
    run whose probe reaches a registry that has rejected the component
    fail with the same error. *)
Lemma publish_failures_not_distinguished :
  result (Sim.answer Sim.registryDown (CurlRegistry REGISTRY_URL))
    <> result (Sim.answer Sim.registryRejects (CurlRegistry REGISTRY_URL)) /\
  exitedNonZero isPublish (snd (fst (Sim.runButton Sim.registryDown))) = true /\
  exitedNonZero isPublish (snd (fst (Sim.runButton Sim.registryRejects))) = true /\
  fst (fst (Sim.runButton Sim.registryDown))
    = fst (fst (Sim.runButton Sim.registryRejects)).
Proof.
  split; [vm_compute; discriminate|].
  repeat split; vm_compute; reflexivity.
Qed.

(** C4, the defect: the install of the agent SDK comes back with exit code
    1, and the pipeline goes on to scaffold the component and returns a
    success. *)
Lemma sdk_install_failure_ignored :
  exitedNonZero isSdkInstall (snd (fst (Sim.runButton Sim.sdkInstallFails))) = true /\
  issued isInit (snd (fst (Sim.runButton Sim.sdkInstallFails))) = true /\
  In {| stream := stdout; text := "Claude Code SDK installed"; value := [] |}
     (printed (snd (fst (Sim.runButton Sim.sdkInstallFails)))) /\
  exists res,
    fst (fst (Sim.runButton Sim.sdkInstallFails)) = Returned (inr res)
    /\ success res = true.
Proof.
  split; [vm_compute; reflexivity|].
  split; [vm_compute; reflexivity|].
  split; [vm_compute; do 5 right; left; reflexivity|].
  eexists. split; [vm_compute; reflexivity | reflexivity].
Qed.

End Scenarios.

(** ** More about the runs of the pipeline *)

Section Stagewise.

Import Pipeline Safety Stages.

Variable toLowerCase : jsstring -> jsstring.
Variable World : Type.
Variable handle : Handler World.

Arguments Slug.componentName : simpl never.
Arguments falsy_opt : simpl never.

Ltac unfold_script :=
  unfold outcome, trace, main, generateOpenComponentInDaytona, try_catch,
    tryBlock, catchBlock, acquireSandbox, when, bind, await, console_log,
    console_error, process_exit, get, set_sandbox, set_sandboxId,
    set_componentName, ret, throw.

Ltac answer :=
  match goal with
  | |- context [handle ?o ?w] =>
      let e := fresh "e" in
      let r := fresh "r" in
      let w' := fresh "w" in
      destruct (handle o w) as [[e|r] w']; cbn
  | E : Z.eqb (exitCode ?r) 0 = _ |- context [Z.eqb (exitCode ?r) 0] =>
      rewrite E; cbn
  | |- context [Z.eqb (exitCode ?r) 0] =>
      let E := fresh "E" in
      destruct (Z.eqb (exitCode r) 0) eqn:E; cbn
  end.

(** Walk every path of a run: the run is named once, then come the test
    of the keys, the way the sandbox is acquired, and the answers one by
    one. [leaf] closes the goal at the end of each path. *)
Ltac at_leaf :=
  let ER := fresh "ER" in
  intros ER; injection ER as <- <- <-; cbn;
  repeat match goal with
         | E : Z.eqb (exitCode ?r) 0 = _ |- context [Z.eqb (exitCode ?r) 0] =>
             rewrite E; cbn
         end.

Ltac every_path leaf :=
  cbv zeta; unfold outcome, trace;
  match goal with
  | |- context [run handle ?p ?w] =>
      let R := fresh "R" in
      let ER := fresh "ER" in
      remember (run handle p w) as R eqn:ER;
      destruct R as [[?out ?tr] ?w];
      cbn [fst snd];
      symmetry in ER; revert ER
  end;
  unfold_script;
  destruct (falsy_opt (DAYTONA_API_KEY _) || falsy_opt (ANTHROPIC_API_KEY _));
    [cbn; at_leaf; leaf|];
  cbn;
  match goal with
  | |- context [falsy_opt ?s] => destruct (falsy_opt s) eqn:?; cbn
  end;
  [ repeat answer; at_leaf; leaf
  | answer; [at_leaf; leaf|];
    match goal with
    | |- context [find ?f ?l] =>
        destruct (find f l) eqn:?; cbn;
        [|at_leaf; leaf]
    end;
    repeat answer; at_leaf; leaf ].

(** When the scaffold command comes back with a non-zero exit code, the
    run fails with [Failed to initialize OpenComponent], its output is
    printed, and neither the generation script nor any later command is
    sent. *)
Theorem init_failure_halts
  (env : ProcessEnv) (sandboxIdArg prompt : option jsstring) (w : World) :
  let p := generateOpenComponentInDaytona toLowerCase env sandboxIdArg prompt in
  exitedNonZero isInit (trace handle p w) = true ->
  outcome handle p w = Returned (inl (lit "Failed to initialize OpenComponent"))
  /\ commands (trace handle p w)
     = firstn 3 (stageOrder prompt (Slug.componentName toLowerCase prompt)).
Proof.
  every_path ltac:(intros H; try discriminate H; split; reflexivity).
Qed.

(** When the generation command comes back with a non-zero exit code, the
    run fails with [Component generation failed] and nothing is sent after
    it: no listing, no build, no publish. *)
Theorem generation_failure_halts
  (env : ProcessEnv) (sandboxIdArg prompt : option jsstring) (w : World) :
  let p := generateOpenComponentInDaytona toLowerCase env sandboxIdArg prompt in
  exitedNonZero isGenerate (trace handle p w) = true ->
  outcome handle p w = Returned (inl (lit "Component generation failed"))
  /\ commands (trace handle p w)
     = firstn 5 (stageOrder prompt (Slug.componentName toLowerCase prompt)).
Proof.
  every_path ltac:(intros H; try discriminate H; split; reflexivity).
Qed.

(** When the build command comes back with a non-zero exit code, the
    verbose rebuild is the one command sent after it and the run fails;
    when the rebuild comes back, whatever its exit code, its output is
    printed after [Debug build:] and the error is [Component build failed].
    Nothing is published. *)
Theorem build_failure_halts
  (env : ProcessEnv) (sandboxIdArg prompt : option jsstring) (w : World) :
  let p := generateOpenComponentInDaytona toLowerCase env sandboxIdArg prompt in
  exitedNonZero isOcBuild (trace handle p w) = true ->
  commands (trace handle p w)
    = firstn 7 (stageOrder prompt (Slug.componentName toLowerCase prompt))
      ++ [OcBuildVerbose]
  /\ (exists e, outcome handle p w = Returned (inl e))
  /\ forall x rebuilt,
       In x (executions (trace handle p w)) ->
       x_command x = OcBuildVerbose -> x_response x = inr rebuilt ->
       outcome handle p w = Returned (inl (lit "Component build failed"))
       /\ In {| stream := stdout; text := "Debug build:"; value := result rebuilt |}
             (printed (trace handle p w)).
Proof.
  every_path ltac:(
    intros H;
    first
      [ discriminate H
      | split; [reflexivity|]; split; [eexists; reflexivity|];
        intros x rebuilt Hx Hc Hr; cbn in Hx;
        repeat match type of Hx with
               | _ \/ _ => destruct Hx as [Hx|Hx];
                           [subst x; cbn in Hc, Hr; try discriminate Hc|]
               | False => contradiction
               end;
        first
          [ discriminate Hr
          | injection Hr as <-;
            split; [reflexivity|]; repeat (first [left; reflexivity | right]) ] ]).
Qed.

(** The commands a run sends are a beginning of the fixed order of the
    stages, followed at most by the verbose rebuild (after the build) or by
    the registry probe (after the publish command): no stage is skipped or
    taken out of order, whatever the environment answers. *)
Theorem commands_follow_stage_order
  (env : ProcessEnv) (sandboxIdArg prompt : option jsstring) (w : World) :
  let tr := trace handle
              (generateOpenComponentInDaytona toLowerCase env sandboxIdArg prompt) w in
  let order := stageOrder prompt (Slug.componentName toLowerCase prompt) in
  exists n,
    commands tr = firstn n order
    \/ commands tr = firstn 7 order ++ [OcBuildVerbose]
    \/ commands tr = firstn 8 order ++ [CurlRegistry REGISTRY_URL].
Proof.
  every_path ltac:(
    first [ exists 0%nat; left; reflexivity
          | exists 1%nat; left; reflexivity
          | exists 2%nat; left; reflexivity
          | exists 3%nat; left; reflexivity
          | exists 4%nat; left; reflexivity
          | exists 5%nat; left; reflexivity
          | exists 6%nat; left; reflexivity
          | exists 7%nat; left; reflexivity
          | exists 8%nat; left; reflexivity
          | exists 9%nat; left; reflexivity
          | exists 0%nat; right; left; reflexivity
          | exists 0%nat; right; right; reflexivity ]).
Qed.

(** A rejected promise is never swallowed: the error of the first
    operation that is rejected is the error the run fails with, and no
    operation is called after it. *)
Theorem rejection_ends_the_run
  (env : ProcessEnv) (sandboxIdArg prompt : option jsstring) (w : World) :
  let p := generateOpenComponentInDaytona toLowerCase env sandboxIdArg prompt in
  callsAfterRejection (trace handle p w) = []
  /\ match firstRejection (trace handle p w) with
     | Some e => outcome handle p w = Returned (inl e)
     | None => True
     end.
Proof.
  every_path ltac:(split; [reflexivity | first [reflexivity | exact I]]).
Qed.

(** The verification probe is advisory: the run returns a success exactly
    when the publish command has come back with exit code 0 and the probe
    has come back, whatever the probe's exit code and output. *)
Theorem success_iff_published
  (env : ProcessEnv) (sandboxIdArg prompt : option jsstring) (w : World) :
  let p := generateOpenComponentInDaytona toLowerCase env sandboxIdArg prompt in
  isSuccess (outcome handle p w)
  = succeeded isPublish (trace handle p w)
    && answered isVerification (trace handle p w).
Proof.
  every_path ltac:(reflexivity).
Qed.

Ltac find_in := repeat (first [left; reflexivity | right]).

(** From [find] having found a sandbox: its id is the id asked for. *)
Ltac found_id :=
  match goal with
  | Hf : falsy_opt ?s = false |- _ =>
      destruct s as [[|? ?]|]; try discriminate Hf
  end;
  match goal with
  | H : find _ _ = Some _ |- _ =>
      apply find_some in H; destruct H as [_ H];
      apply jsstring_eqb_eq in H; cbn in H
  end.

(** Every command of a run is sent to one and the same sandbox, the one
    acquired in step 1. *)
Theorem commands_go_to_the_acquired_sandbox
  (env : ProcessEnv) (sandboxIdArg prompt : option jsstring) (w : World) :
  let tr := trace handle
              (generateOpenComponentInDaytona toLowerCase env sandboxIdArg prompt) w in
  Forall (fun x => acquired tr = Some (x_sandbox x)) (executions tr).
Proof.
  every_path ltac:(repeat constructor).
Qed.

(** Reattachment: given a sandbox id, the run never creates a sandbox, and
    the sandbox it works in has the id that was given. *)
Theorem reattachment_uses_the_given_sandbox
  (env : ProcessEnv) (sandboxId : jsstring) (prompt : option jsstring) (w : World) :
  sandboxId <> [] ->
  let tr := trace handle
              (generateOpenComponentInDaytona toLowerCase env (Some sandboxId) prompt) w in
  existsb isCreate (calls tr) = false
  /\ match acquired tr with
     | Some sb => id sb = sandboxId
     | None => True
     end.
Proof.
  intros Hid. destruct sandboxId as [|c s]; [contradiction|]. clear Hid.
  every_path ltac:(
    first [ match goal with
            | H : falsy_opt (Some (_ :: _)) = true |- _ => discriminate H
            end
          | split; [reflexivity|];
            first [ exact I
                  | match goal with
                    | H : find _ _ = Some _ |- _ =>
                        apply find_some in H; destruct H as [_ H];
                        apply jsstring_eqb_eq in H; exact H
                    end ] ]).
Qed.

(** A run that fails after it has acquired a sandbox prints the error, the
    id of that sandbox and the line saying that the sandbox is still
    running, so that the sandbox can be found again. *)
Theorem failure_names_the_sandbox
  (env : ProcessEnv) (sandboxIdArg prompt : option jsstring) (w : World)
  (error : Error) (sb : Sandbox) :
  let p := generateOpenComponentInDaytona toLowerCase env sandboxIdArg prompt in
  outcome handle p w = Returned (inl error) ->
  acquired (trace handle p w) = Some sb ->
  In {| stream := stderr; text := "ERROR:"; value := error |}
     (printed (trace handle p w))
  /\ In {| stream := stdout; text := "Sandbox ID: "; value := id sb |}
        (printed (trace handle p w))
  /\ In {| stream := stdout; text := "The sandbox is still running for debugging.";
           value := [] |}
        (printed (trace handle p w)).
Proof.
  every_path ltac:(
    intros Hout Hacq;
    first [ discriminate Hout
          | discriminate Hacq
          | injection Hout as <-; injection Hacq as <-;
            try found_id;
            try match goal with
                | H : id _ = _ |- _ => rewrite <- H
                end;
            split; [find_in|]; split; find_in ]).
Qed.

(** A run that returns has sent the whole sequence of commands, and the
    OC CLI install, the scaffold, the generation, the build and the publish
    commands have each come back with exit code 0. The result names the
    sandbox the run worked in, the component name derived from the prompt,
    the component directory under the sandbox's root directory, and the
    registry URL followed by the name. *)
Theorem success_means_every_stage_passed
  (env : ProcessEnv) (sandboxIdArg prompt : option jsstring) (w : World)
  (res : PipelineResult) :
  let p := generateOpenComponentInDaytona toLowerCase env sandboxIdArg prompt in
  let name := Slug.componentName toLowerCase prompt in
  outcome handle p w = Returned (inr res) ->
  commands (trace handle p w) = stageOrder prompt name
  /\ succeeded isCliInstall (trace handle p w)
     && succeeded isInit (trace handle p w)
     && succeeded isGenerate (trace handle p w)
     && succeeded isOcBuild (trace handle p w)
     && succeeded isPublish (trace handle p w) = true
  /\ success res = true
  /\ componentName res = name
  /\ componentUrl res = REGISTRY_URL ++ name
  /\ registryUrl res = REGISTRY_URL
  /\ exists sb dir,
       acquired (trace handle p w) = Some sb
       /\ rootDir (trace handle p w) = Some dir
       /\ sandboxId res = Some (id sb)
       /\ componentDir res = dir ++ lit "/" ++ name.
Proof.
  every_path ltac:(
    intros Hout;
    first [ discriminate Hout
          | injection Hout as <-;
            try found_id;
            try match goal with
                | H : id _ = _ |- _ => rewrite <- H
                end;
            do 6 (split; [reflexivity|]);
            eexists; eexists;
            split; [reflexivity|]; split; [reflexivity|];
            split; reflexivity ]).
Qed.

Lemma run_bindP {A B} (p : Prog A) (f : A -> Prog B) (w : World) :
  run handle (bindP p f) w
  = match run handle p w with
    | (Returned a, tr, w1) =>
        let '(out, tr2, w2) := run handle (f a) w1 in (out, tr ++ tr2, w2)
    | (Exited c, tr, w1) => (Exited c, tr, w1)
    end.
Proof.
  revert w. induction p as [a|c|l k IH|o k IH]; intros w; simpl.
  - destruct (run handle (f a) w) as [[out tr] w2]. reflexivity.
  - reflexivity.
  - rewrite IH. destruct (run handle k w) as [[[a|c] tr] w1].
    + destruct (run handle (f a) w1) as [[out tr2] w2]. reflexivity.
    + reflexivity.
  - destruct (handle o w) as [r w0]. rewrite IH.
    destruct (run handle (k r) w0) as [[[a|c] tr] w1].
    + destruct (run handle (f a) w1) as [[out tr2] w2]. reflexivity.
    + reflexivity.
Qed.

Lemma calls_app (tr1 tr2 : list Event) :
  calls (tr1 ++ tr2) = calls tr1 ++ calls tr2.
Proof.
  induction tr1 as [|[l|o r] tr1 IH]; simpl; [reflexivity | exact IH |].
  rewrite IH. reflexivity.
Qed.

(** The entry point hands the configuration parsed from its arguments to
    the pipeline and calls exactly the operations the pipeline calls; it
    ends the process with exit code 1 when the pipeline throws and returns
    normally when the pipeline returns. *)
Theorem main_runs_the_pipeline
  (env : ProcessEnv) (args : list jsstring) (w : World) :
  let p := generateOpenComponentInDaytona toLowerCase env
             (fst (Cli.configuration args))
             (Some (snd (Cli.configuration args))) in
  outcome handle (main toLowerCase env args) w
  = match outcome handle p w with
    | Returned (inl _) => Exited 1
    | Returned (inr _) => Returned tt
    | Exited c => Exited c
    end
  /\ calls (trace handle (main toLowerCase env args) w) = calls (trace handle p w).
Proof.
  cbv zeta. unfold outcome, trace, main. cbn [run]. fold (Cli.configuration args).
  change (Cli.sandboxId (Cli.parseArguments args)) with (fst (Cli.configuration args)).
  change (Cli.promptOrDefault (Cli.prompt (Cli.parseArguments args)))
    with (snd (Cli.configuration args)).
  rewrite run_bindP.
  destruct (run handle
              (generateOpenComponentInDaytona toLowerCase env
                 (fst (Cli.configuration args))
                 (Some (snd (Cli.configuration args)))) w)
    as [[[[e|res]|c] tr] w1]; cbn.
  - rewrite calls_app. cbn. rewrite app_nil_r. split; reflexivity.
  - rewrite app_nil_r. split; reflexivity.
  - split; reflexivity.
Qed.

End Stagewise.

(** ** More runs against the simulated sandbox *)

Section MoreWitnesses.

Import Pipeline Safety Stages GenerationScript MoreScenarios.

Lemma cli_install_failure_halts_witness :
  outcome (Sim.handle cliInstallFails) button []
    = Returned (inl (lit "Failed to install OpenComponents CLI"))
  /\ issued isInit (trace (Sim.handle cliInstallFails) button []) = false.
Proof.
  pose proof (cli_install_failure_halts asciiToLowerCase Files
                (Sim.handle cliInstallFails) Sim.keys None
                (Some Sim.buttonPrompt) []
                ltac:(vm_compute; reflexivity)) as (H1 & _ & H3).
  split; [exact H1 | exact H3].
Defined.

Lemma init_failure_halts_witness :
  outcome (Sim.handle initFails) button []
    = Returned (inl (lit "Failed to initialize OpenComponent"))
  /\ commands (trace (Sim.handle initFails) button [])
     = [NpmInstallOc; NpmInstallClaudeCode;
        OcInit (lit "create-a-button-component")].
Proof.
  pose proof (init_failure_halts asciiToLowerCase Files
                (Sim.handle initFails) Sim.keys None
                (Some Sim.buttonPrompt) []
                ltac:(vm_compute; reflexivity)) as (H1 & H2).
  split; [exact H1|]. unfold button. rewrite H2. vm_compute. reflexivity.
Defined.

Lemma generation_failure_halts_witness :
  outcome (Sim.handle sessionThrows) button []
    = Returned (inl (lit "Component generation failed"))
  /\ issued isBuild (trace (Sim.handle sessionThrows) button []) = false.
Proof.
  pose proof (generation_failure_halts asciiToLowerCase Files
                (Sim.handle sessionThrows) Sim.keys None
                (Some Sim.buttonPrompt) []
                ltac:(vm_compute; reflexivity)) as (H1 & H2).
  split; [exact H1 | vm_compute; reflexivity].
Defined.

Lemma build_failure_halts_witness :
  outcome (Sim.handle buildFails) button []
    = Returned (inl (lit "Component build failed"))
  /\ issued isPublish (trace (Sim.handle buildFails) button []) = false.
Proof.
  pose proof (build_failure_halts asciiToLowerCase Files
                (Sim.handle buildFails) Sim.keys None
                (Some Sim.buttonPrompt) []
                ltac:(vm_compute; reflexivity)) as (_ & _ & H).
  split; [|vm_compute; reflexivity].
  refine (proj1 (H {| x_sandbox := Sim.created Sim.allGood;
                      x_command := OcBuildVerbose;
                      x_cwd := lit "/home/daytona/create-a-button-component";
                      x_env := None; x_timeout := None;
                      x_response := inr (Sim.failed "view.js: unexpected token") |}
                   (Sim.failed "view.js: unexpected token") _ eq_refl eq_refl)).
  vm_compute. do 7 right. left. reflexivity.
Defined.

Lemma reattachment_uses_the_given_sandbox_witness :
  existsb isCreate
    (calls (trace (Sim.handle twoKnown) reattachButton [])) = false
  /\ acquired (trace (Sim.handle twoKnown) reattachButton [])
     = Some {| id := Cli.sampleUuid |}.
Proof.
  pose proof (reattachment_uses_the_given_sandbox asciiToLowerCase Files
                (Sim.handle twoKnown) Sim.keys Cli.sampleUuid
                (Some Sim.buttonPrompt) []
                ltac:(vm_compute; discriminate)) as (H1 & _).
  split; [exact H1 | vm_compute; reflexivity].
Defined.

Lemma failure_names_the_sandbox_witness :
  In {| stream := stdout; text := "Sandbox ID: "; value := lit "sandbox-1" |}
     (printed (trace (Sim.handle buildFails) button [])).
Proof.
  pose proof (failure_names_the_sandbox asciiToLowerCase Files
                (Sim.handle buildFails) Sim.keys None
                (Some Sim.buttonPrompt) [] (lit "Component build failed")
                (Sim.created Sim.allGood)
                ltac:(vm_compute; reflexivity)
                ltac:(vm_compute; reflexivity)) as (_ & H & _).
  exact H.
Defined.

Lemma success_means_every_stage_passed_witness :
  commands (trace (Sim.handle Sim.allGood) button [])
    = stageOrder (Some Sim.buttonPrompt) (lit "create-a-button-component").
Proof.
  pose proof (success_means_every_stage_passed asciiToLowerCase Files
                (Sim.handle Sim.allGood) Sim.keys None
                (Some Sim.buttonPrompt) [] _
                ltac:(vm_compute; reflexivity)) as (H & _).
  unfold button. rewrite H. vm_compute. reflexivity.
Defined.

End MoreWitnesses.

(** ** More about the component name and the command line *)

Section NameFacts.

Import Slug.
Local Open Scope N_scope.

Lemma dropWhile_head {A} (p : A -> bool) (l : list A) :
  match dropWhile p l with
  | c :: _ => p c = false
  | [] => True
  end.
Proof.
  induction l as [|x l IH]; simpl; [exact I|].
  destruct (p x) eqn:E; [exact IH | exact E].
Qed.

Lemma dropWhile_suffix {A} (p : A -> bool) (l : list A) :
  exists pre, l = pre ++ dropWhile p l.
Proof.
  induction l as [|x l [pre IH]]; simpl; [exists []; reflexivity|].
  destruct (p x).
  - exists (x :: pre). simpl. rewrite <- IH. reflexivity.
  - exists []. reflexivity.
Qed.

Lemma dropWhileEnd_prefix {A} (p : A -> bool) (l : list A) :
  exists post, l = dropWhileEnd p l ++ post.
Proof.
  unfold dropWhileEnd.
  destruct (dropWhile_suffix p (rev l)) as [pre H].
  exists (rev pre).
  rewrite <- rev_app_distr, <- H, rev_involutive. reflexivity.
Qed.

Lemma dropWhile_id {A} (p : A -> bool) (l : list A) :
  match l with
  | c :: _ => p c = false
  | [] => True
  end -> dropWhile p l = l.
Proof.
  destruct l as [|x l]; simpl; [reflexivity|]. intros ->. reflexivity.
Qed.

Lemma dropWhileEnd_id {A} (p : A -> bool) (l : list A) :
  match rev l with
  | c :: _ => p c = false
  | [] => True
  end -> dropWhileEnd p l = l.
Proof.
  intros H. unfold dropWhileEnd. rewrite (dropWhile_id p (rev l) H).
  apply rev_involutive.
Qed.

(** The ends of a trimmed string are not hyphens. *)
Lemma trimHyphens_ends (s : jsstring) :
  match trimHyphens s with
  | c :: _ => isHyphen c = false
  | [] => True
  end
  /\ match rev (trimHyphens s) with
     | c :: _ => isHyphen c = false
     | [] => True
     end.
Proof.
  unfold trimHyphens. split.
  - pose proof (dropWhile_head isHyphen s) as Hh.
    destruct (dropWhileEnd_prefix isHyphen (dropWhile isHyphen s)) as [post Hp].
    destruct (dropWhileEnd isHyphen (dropWhile isHyphen s)) as [|c t]; [exact I|].
    rewrite Hp in Hh. exact Hh.
  - unfold dropWhileEnd. rewrite rev_involutive. apply dropWhile_head.
Qed.

Lemma componentName_cases (toLowerCase : jsstring -> jsstring)
  (prompt : option jsstring) :
  componentName toLowerCase prompt = fallbackName
  \/ exists p, componentName toLowerCase prompt = derive toLowerCase p
               /\ derive toLowerCase p <> [].
Proof.
  unfold componentName, defaultComponentName, or_else.
  destruct prompt as [p|]; [|left; reflexivity].
  destruct (falsy p); [left; reflexivity|].
  destruct (derive toLowerCase p) as [|c s] eqn:E; [left; reflexivity|].
  right. exists p. rewrite E. split; [reflexivity | discriminate].
Qed.

(** The component name never begins and never ends with a hyphen, whatever
    the prompt: the hyphens that truncation to 30 code units leaves at the
    end are trimmed too. *)
Theorem componentName_no_outer_hyphen
  (toLowerCase : jsstring -> jsstring) (prompt : option jsstring) :
  match componentName toLowerCase prompt with
  | c :: _ => isHyphen c = false
  | [] => False
  end
  /\ match rev (componentName toLowerCase prompt) with
     | c :: _ => isHyphen c = false
     | [] => False
     end.
Proof.
  destruct (componentName_cases toLowerCase prompt) as [->|(p & -> & Hne)].
  - split; vm_compute; reflexivity.
  - unfold derive in *.
    pose proof (trimHyphens_ends
                  (limitLength (spacesToHyphens
                     (removeSpecialChars (toLowerCase p))))) as [H1 H2].
    destruct (trimHyphens _) as [|c t] eqn:E; [contradiction|].
    split; [exact H1|].
    destruct (rev (c :: t)) as [|d u] eqn:Er; [|exact H2].
    apply (f_equal (@rev N)) in Er. rewrite rev_involutive in Er. discriminate.
Qed.

Lemma isSlugChar_not_space (c : N) : isSlugChar c = true -> isWhiteSpace c = false.
Proof.
  unfold isSlugChar, isLowerAlnum, isHyphen, hyphen, isWhiteSpace. intros H.
  rewrite !orb_true_iff, !andb_true_iff, !N.leb_le, N.eqb_eq in H.
  repeat (apply orb_false_iff; split);
    first [ apply N.eqb_neq; lia
          | apply andb_false_iff;
            destruct (N.leb_spec 9 c); [right; apply N.leb_gt; lia | left; reflexivity]
          | apply andb_false_iff;
            destruct (N.leb_spec 8192 c); [lia | left; reflexivity] ].
Qed.

Lemma removeSpecialChars_id (s : jsstring) :
  Forall (fun c => isSlugChar c = true) s -> removeSpecialChars s = s.
Proof.
  unfold removeSpecialChars.
  induction 1 as [|c s Hc Hs IH]; simpl; [reflexivity|].
  rewrite IH. unfold isSlugChar in Hc.
  rewrite (isSlugChar_not_space c Hc), orb_false_r, Hc. reflexivity.
Qed.

Lemma spacesToHyphens_id (s : jsstring) :
  Forall (fun c => isSlugChar c = true) s -> spacesToHyphens_from false s = s.
Proof.
  induction 1 as [|c s Hc Hs IH]; simpl; [reflexivity|].
  rewrite (isSlugChar_not_space c Hc), IH. reflexivity.
Qed.

(** A name is a fixed point of the derivation: deriving a component name
    from a component name gives the same name back, for any case mapping
    that leaves strings of [a-z0-9-] as they are. *)
Theorem componentName_idempotent
  (toLowerCase : jsstring -> jsstring) (prompt : option jsstring) :
  (forall s, Forall (fun c => isSlugChar c = true) s -> toLowerCase s = s) ->
  componentName toLowerCase (Some (componentName toLowerCase prompt))
  = componentName toLowerCase prompt.
Proof.
  intros Hlower.
  assert (Hfix : forall s,
             Forall (fun c => isSlugChar c = true) s ->
             (List.length s <= 30)%nat -> s <> [] ->
             match s with c :: _ => isHyphen c = false | [] => True end ->
             match rev s with c :: _ => isHyphen c = false | [] => True end ->
             componentName toLowerCase (Some s) = s).
  { intros s Hs Hlen Hne Hhd Hlast.
    unfold componentName, defaultComponentName, or_else, derive.
    rewrite (Hlower s Hs), (removeSpecialChars_id s Hs).
    unfold spacesToHyphens. rewrite (spacesToHyphens_id s Hs).
    unfold limitLength. rewrite (firstn_all2 s Hlen).
    unfold trimHyphens.
    rewrite (dropWhile_id isHyphen s Hhd), (dropWhileEnd_id isHyphen s Hlast).
    destruct s; [contradiction|reflexivity]. }
  destruct (componentName_cases toLowerCase prompt) as [->|(p & -> & Hne)].
  - apply Hfix; try (vm_compute; try lia; try discriminate; reflexivity).
    apply fallbackName_slug.
  - destruct (derive_slug toLowerCase p) as [Hs Hlen].
    apply Hfix; try assumption; unfold derive; apply trimHyphens_ends.
Qed.

Lemma asciiToLowerCase_slug (s : jsstring) :
  Forall (fun c => isSlugChar c = true) s -> asciiToLowerCase s = s.
Proof.
  unfold asciiToLowerCase.
  induction 1 as [|c s Hc Hs IH]; simpl; [reflexivity|].
  rewrite IH. apply isSlugChar_not_upper in Hc. unfold isUpper in Hc.
  rewrite Hc. reflexivity.
Qed.

Lemma componentName_idempotent_witness :
  componentName asciiToLowerCase
    (Some (componentName asciiToLowerCase
             (Some (lit "Navigation menu for the shop -- dark"))))
  = lit "navigation-menu-for-the-shop".
Proof.
  rewrite (componentName_idempotent asciiToLowerCase
             (Some (lit "Navigation menu for the shop -- dark"))
             asciiToLowerCase_slug).
  vm_compute. reflexivity.
Defined.

End NameFacts.

Section ConfigurationFacts.

Import Cli.

(** Whatever the arguments, the prompt the entry point hands to the
    pipeline is not empty, and a sandbox id, when one is handed over, is
    the first argument, has the UUID shape and so is not empty either. *)
Theorem configuration_never_empty (args : list jsstring) :
  snd (configuration args) <> []
  /\ match fst (configuration args) with
     | Some sandboxId =>
         hd_error args = Some sandboxId /\ UuidShaped sandboxId
         /\ sandboxId <> []
     | None => True
     end.
Proof.
  assert (Hd : defaultPrompt <> []) by (vm_compute; discriminate).
  unfold configuration, parseArguments, promptOrDefault.
  destruct args as [|first others]; [split; [exact Hd | exact I]|].
  destruct (uuidRegex_test first) eqn:E; cbn [sandboxId prompt fst snd].
  - split.
    + destruct (join_space others); [exact Hd | discriminate].
    + apply uuidRegex_test_spec in E.
      split; [reflexivity|]. split; [exact E|].
      destruct E as [Hlen _]. destruct first; [discriminate Hlen | discriminate].
  - split; [|exact I].
    destruct (join_space (first :: others)); [exact Hd | discriminate].
Qed.

End ConfigurationFacts.

(** ** The size of a directory *)

Section DirectorySizeFacts.

Import DirectorySize.
Local Open Scope N_scope.

Lemma total_app (a b : list N) : total (a ++ b) = total a + total b.
Proof.
  unfold total. induction a as [|x a IH]; simpl; [reflexivity|].
  rewrite IH. lia.
Qed.

(** Induction on entries that reaches the entries of a directory. *)
Lemma Entry_rect_deep (P : Entry -> Prop) :
  (forall size, P (File size)) ->
  P (Directory None) ->
  (forall entries, Forall (fun ne => P (snd ne)) entries ->
                   P (Directory (Some entries))) ->
  P Unstatable ->
  forall e, P e.
Proof.
  intros Hfile Hnone Hdir Hbroken.
  fix IH 1. intros [size|[entries|]|].
  - apply Hfile.
  - apply Hdir. induction entries as [|[name e] entries IHentries].
    + constructor.
    + constructor; [apply IH | exact IHentries].
  - apply Hnone.
  - apply Hbroken.
Qed.

Lemma toNumber_exact (n : N) : n <= 2 ^ 53 -> toNumber n = Finite n.
Proof.
  intros H. unfold toNumber, roundToDouble.
  destruct (n <? 2 ^ 53) eqn:E.
  - assert ((n <? 2 ^ 1024) = true) as ->; [|reflexivity].
    apply N.ltb_lt in E. apply N.ltb_lt.
    apply (N.lt_trans _ _ _ E). apply N.pow_lt_mono_r; lia.
  - apply N.ltb_ge in E. assert (n = 2 ^ 53) as -> by lia.
    vm_compute. reflexivity.
Qed.

Lemma plus_exact (a b : N) :
  a + b <= 2 ^ 53 -> plus (Finite a) (Finite b) = Finite (a + b).
Proof. intros H. simpl. apply toNumber_exact, H. Qed.

Lemma sumUntilError_readable (entries : list (jsstring * Entry)) :
  Forall (fun ne => readable (snd ne) = true ->
                    total (fileSizes (snd ne)) <= 2 ^ 53 ->
                    added (snd ne) = Some (Finite (total (fileSizes (snd ne)))))
         entries ->
  forall size,
    forallb (fun ne => readable (snd ne)) entries = true ->
    size + total (flat_map (fun ne => fileSizes (snd ne)) entries) <= 2 ^ 53 ->
    sumUntilError (Finite size) (List.map (fun ne => added (snd ne)) entries)
    = Finite (size + total (flat_map (fun ne => fileSizes (snd ne)) entries)).
Proof.
  induction 1 as [|[name e] entries IHe _ IHentries]; intros size Hall Hsum.
  - cbn. rewrite N.add_0_r. reflexivity.
  - cbn [forallb snd] in Hall. apply andb_true_iff in Hall.
    destruct Hall as [He Hrest].
    cbn [flat_map snd] in Hsum |- *. rewrite total_app in Hsum |- *.
    cbn [List.map snd sumUntilError]. cbn [snd] in IHe.
    rewrite (IHe He) by lia. rewrite plus_exact by lia.
    rewrite (IHentries _ Hrest) by lia.
    f_equal. lia.
Qed.

Lemma added_readable (e : Entry) :
  readable e = true -> total (fileSizes e) <= 2 ^ 53 ->
  added e = Some (Finite (total (fileSizes e))).
Proof.
  induction e as [size| |entries IH|] using Entry_rect_deep;
    cbn [readable added fileSizes]; try discriminate.
  - intros _ H. unfold total in *. cbn [fold_right] in *.
    rewrite N.add_0_r in *. rewrite toNumber_exact by exact H. reflexivity.
  - intros Hall Hsum.
    rewrite (sumUntilError_readable entries IH 0 Hall) by (rewrite N.add_0_l; exact Hsum).
    rewrite N.add_0_l. reflexivity.
Qed.

Lemma sumUntilError_at_most (entries : list (jsstring * Entry)) :
  Forall (fun ne => total (fileSizes (snd ne)) <= 2 ^ 53 ->
                    match added (snd ne) with
                    | Some (Finite n) => n <= total (fileSizes (snd ne))
                    | Some Infinity => False
                    | None => True
                    end)
         entries ->
  forall size,
    size + total (flat_map (fun ne => fileSizes (snd ne)) entries) <= 2 ^ 53 ->
    exists n,
      sumUntilError (Finite size) (List.map (fun ne => added (snd ne)) entries)
      = Finite n
      /\ n <= size + total (flat_map (fun ne => fileSizes (snd ne)) entries).
Proof.
  induction 1 as [|[name e] entries IHe _ IHentries]; intros size Hsum.
  - exists size. split; [reflexivity|]. cbn. lia.
  - cbn [flat_map snd] in Hsum |- *. rewrite total_app in Hsum |- *.
    cbn [List.map snd sumUntilError]. cbn [snd] in IHe.
    specialize (IHe ltac:(lia)).
    destruct (added e) as [[n|]|].
    + rewrite plus_exact by lia.
      destruct (IHentries (size + n) ltac:(lia)) as (m & -> & Hm).
      exists m. split; [reflexivity | lia].
    + destruct IHe.
    + exists size. split; [reflexivity | lia].
Qed.

Lemma added_at_most (e : Entry) :
  total (fileSizes e) <= 2 ^ 53 ->
  match added e with
  | Some (Finite n) => n <= total (fileSizes e)
  | Some Infinity => False
  | None => True
  end.
Proof.
  induction e as [size| |entries IH|] using Entry_rect_deep;
    cbn [added fileSizes].
  - intros H. unfold total in *. cbn [fold_right] in *.
    rewrite N.add_0_r in *. rewrite toNumber_exact by exact H. lia.
  - intros _. apply N.le_0_l.
  - intros Hsum.
    destruct (sumUntilError_at_most entries IH 0) as (n & -> & Hn);
      [rewrite N.add_0_l; exact Hsum|].
    rewrite N.add_0_l in Hn. exact Hn.
  - intros _. exact I.
Qed.

(** As long as the sizes of the files of the tree add up to 2^53 bytes at
    most: when every directory can be listed and every name examined, the
    size computed is the sum of the sizes of all the files in the tree, at
    any depth. *)
Theorem getDirectorySize_readable (entries : list (jsstring * Entry)) :
  readable (Directory (Some entries)) = true ->
  total (fileSizes (Directory (Some entries))) <= 2 ^ 53 ->
  getDirectorySize (Some entries)
  = Finite (total (fileSizes (Directory (Some entries)))).
Proof.
  intros H Hsum.
  pose proof (added_readable (Directory (Some entries)) H Hsum) as Ha.
  cbn [added] in Ha. injection Ha as Ha. exact Ha.
Qed.

Lemma getDirectorySize_readable_witness :
  getDirectorySize (Some sampleComponent) = Finite 4860.
Proof.
  rewrite (getDirectorySize_readable sampleComponent eq_refl
             ltac:(apply N.leb_le; vm_compute; reflexivity)).
  vm_compute. reflexivity.
Defined.

(** As long as the sizes of the files of the tree add up to 2^53 bytes at
    most, errors never add to the size: whatever cannot be listed or
    examined, the size computed is at most the sum of the sizes of the
    files in the tree. *)
Theorem getDirectorySize_at_most (listing : option (list (jsstring * Entry))) :
  total (fileSizes (Directory listing)) <= 2 ^ 53 ->
  exists n,
    getDirectorySize listing = Finite n
    /\ n <= total (fileSizes (Directory listing)).
Proof.
  intros Hsum. destruct listing as [entries|].
  - pose proof (added_at_most (Directory (Some entries)) Hsum) as Ha.
    cbn [added] in Ha. unfold getDirectorySize.
    destruct (sumUntilError _ _) as [n|]; [|destruct Ha].
    exists n. split; [reflexivity | exact Ha].
  - exists 0. split; [reflexivity | apply N.le_0_l].
Qed.

Lemma getDirectorySize_at_most_witness :
  exists n,
    getDirectorySize (Some brokenComponent) = Finite n
    /\ n <= total (fileSizes (Directory (Some brokenComponent))).
Proof.
  apply (getDirectorySize_at_most (Some brokenComponent)).
  apply N.leb_le. vm_compute. reflexivity.
Defined.

Lemma sumUntilError_stops (size : Number) (before after : list (option Number)) :
  sumUntilError size (before ++ None :: after) = sumUntilError size before.
Proof.
  revert size. induction before as [|[n|] before IH]; intros size;
    cbn [app sumUntilError]; [reflexivity | | reflexivity].
  apply IH.
Qed.

(** The first name that cannot be examined ends the count: the entries
    listed after it add nothing, whatever they are, while a subdirectory
    that cannot be listed counts for 0 and the count goes on after it. *)
Theorem getDirectorySize_stops_at_error
  (before after : list (jsstring * Entry)) (name : jsstring) :
  getDirectorySize (Some (before ++ (name, Unstatable) :: after))
  = getDirectorySize (Some before)
  /\ getDirectorySize (Some ((name, Directory None) :: after))
     = getDirectorySize (Some after).
Proof.
  split; [|reflexivity].
  unfold getDirectorySize. rewrite map_app. cbn [List.map snd added].
  apply sumUntilError_stops.
Qed.

Example getDirectorySize_broken :
  getDirectorySize (Some brokenComponent) = Finite 412.
Proof. vm_compute. reflexivity. Qed.

(** Beyond 2^53 bytes the sum is no longer exact: one more byte is lost,
    three more bytes count for four. *)
Example getDirectorySize_rounds :
  getDirectorySize (Some (hugeFiles 1)) = Finite (2 ^ 53)
  /\ getDirectorySize (Some (hugeFiles 3)) = Finite (2 ^ 53 + 4).
Proof. split; vm_compute; reflexivity. Qed.

End DirectorySizeFacts.

(** ** The clean script *)

Section CleanFacts.

Import Pipeline Registry Watch.

Lemma run_bindP_proc {World} (handle : Handler World)
  {A B} (p : Proc A) (f : A -> Proc B) (w : World) :
  run handle (bindP p f) w
  = match run handle p w with
    | (Finished a, tr, w1) =>
        let '(out, tr2, w2) := run handle (f a) w1 in (out, tr ++ tr2, w2)
    | (Exited c, tr, w1) => (Exited c, tr, w1)
    | (Waiting, tr, w1) => (Waiting, tr, w1)
    end.
Proof.
  revert w. induction p as [a|c| |l k IH|o k IH]; intros w; simpl.
  - destruct (run handle (f a) w) as [[out tr] w2]. reflexivity.
  - reflexivity.
  - reflexivity.
  - rewrite IH. destruct (run handle k w) as [[[a|c|] tr] w1]; try reflexivity.
    destruct (run handle (f a) w1) as [[out tr2] w2]. reflexivity.
  - destruct (handle o w) as [r w0]. rewrite IH.
    destruct (run handle (k r) w0) as [[[a|c|] tr] w1]; try reflexivity.
    destruct (run handle (f a) w1) as [[out tr2] w2]. reflexivity.
Qed.

Lemma run_bindP_assoc {World} (handle : Handler World)
  {A B C} (p : Proc A) (f : A -> Proc B) (g : B -> Proc C) (w : World) :
  run handle (bindP (bindP p f) g) w
  = run handle (bindP p (fun a => bindP (f a) g)) w.
Proof.
  revert w. induction p as [a|c| |l k IH|o k IH]; intros w; simpl;
    try reflexivity.
  - rewrite IH. reflexivity.
  - destruct (handle o w) as [r w0]. rewrite IH. reflexivity.
Qed.

Section SoundRules.

Variable State : Type.
Variable step : State -> Event -> option State.

Lemma after_app (s : State) (tr1 tr2 : list Event) :
  after step s (tr1 ++ tr2)
  = match after step s tr1 with
    | Some s' => after step s' tr2
    | None => None
    end.
Proof.
  revert s. induction tr1 as [|ev tr1 IH]; intros s; simpl; [reflexivity|].
  destruct (step s ev); [apply IH | reflexivity].
Qed.

Lemma sound_done {A} (Q : A -> State -> Prop) (s : State) (a : A) :
  Q a s -> Sound step Q s (Done a).
Proof. intros H World handle w. exact H. Qed.

Lemma sound_quit {A} (Q : A -> State -> Prop) (s : State) (c : Z) :
  Sound step Q s (Quit c).
Proof. intros World handle w. exact I. Qed.

Lemma sound_forever {A} (Q : A -> State -> Prop) (s : State) :
  Sound step Q s Forever.
Proof. intros World handle w. exact I. Qed.

Lemma sound_say {A} (Q : A -> State -> Prop) (s s' : State) (l : LogLine)
  (k : Proc A) :
  step s (Said l) = Some s' -> Sound step Q s' k -> Sound step Q s (Say l k).
Proof.
  intros Hstep Hk World handle w. specialize (Hk World handle w).
  unfold trace, outcome in *. simpl.
  destruct (run handle k w) as [[out tr] w']. simpl in *.
  rewrite Hstep. exact Hk.
Qed.

Lemma sound_do {A} (Q : A -> State -> Prop) (s : State) (o : Op)
  (k : Resp o -> Proc A) (next : Resp o -> State) :
  (forall r, step s (Did o r) = Some (next r)) ->
  (forall r, Sound step Q (next r) (k r)) ->
  Sound step Q s (Do o k).
Proof.
  intros Hstep Hk World handle w. unfold trace, outcome in *. simpl.
  destruct (handle o w) as [r w1]. specialize (Hk r World handle w1).
  unfold trace, outcome in Hk.
  destruct (run handle (k r) w1) as [[out tr] w2]. simpl in *.
  rewrite Hstep. exact Hk.
Qed.

Lemma sound_bindP {A B} (Q : A -> State -> Prop) (R : B -> State -> Prop)
  (s : State) (p : Proc A) (f : A -> Proc B) :
  Sound step Q s p ->
  (forall a s', Q a s' -> Sound step R s' (f a)) ->
  Sound step R s (bindP p f).
Proof.
  intros Hp Hf World handle w. specialize (Hp World handle w).
  unfold trace, outcome in *. rewrite run_bindP_proc.
  destruct (run handle p w) as [[[a|c|] tr] w1]; simpl in *.
  - destruct (after step s tr) as [s'|] eqn:E; [|contradiction].
    specialize (Hf a s' Hp World handle w1). unfold trace, outcome in Hf.
    destruct (run handle (f a) w1) as [[out tr2] w2]. simpl in *.
    rewrite after_app, E. exact Hf.
  - destruct (after step s tr); [exact I | contradiction].
  - destruct (after step s tr); [exact I | contradiction].
Qed.

Lemma sound_assoc {A B C} (R : C -> State -> Prop) (s : State)
  (p : Proc A) (f : A -> Proc B) (g : B -> Proc C) :
  Sound step R s (bindP p (fun a => bindP (f a) g)) ->
  Sound step R s (bindP (bindP p f) g).
Proof.
  intros H World handle w. specialize (H World handle w).
  unfold trace, outcome in *. rewrite run_bindP_assoc. exact H.
Qed.

Variable here : State.
Hypothesis stats : forall p r, step here (Did (isDirectory p) r) = Some here.
Hypothesis sizes : forall p r, step here (Did (directorySize p) r) = Some here.

Lemma onlyDirectories_sound (dir : Path) (items : list jsstring) :
  Sound step (fun _ s' => s' = here) here (onlyDirectories dir items).
Proof.
  induction items as [|item rest IH]; simpl.
  - apply sound_done. reflexivity.
  - unfold bind, fs_isDirectory, ret. cbn.
    eapply sound_do; [intros r; apply stats|].
    intros [e|d]; cbn; [apply sound_done; reflexivity|].
    eapply sound_bindP; [exact IH|].
    intros [e|ds] s' ->; apply sound_done; reflexivity.
Qed.

Lemma totalSize_sound (dir : Path) (size : DirectorySize.Number)
  (components : list jsstring) :
  Sound step (fun _ s' => s' = here) here (totalSize dir size components).
Proof.
  revert size. induction components as [|comp rest IH]; intros size;
    cbn [totalSize].
  - apply sound_done. reflexivity.
  - unfold bind, ask. cbn [bindP].
    eapply sound_do; [intros r; apply sizes|].
    intros n. cbn. apply IH.
Qed.

End SoundRules.

(** One step of a script under a monitor. *)
Ltac obey :=
  match goal with
  | |- Sound _ _ _ (Done _) => apply sound_done; first [reflexivity | exact I]
  | |- Sound _ _ _ (Quit _) => apply sound_quit
  | |- Sound _ _ _ Forever => apply sound_forever
  | |- Sound _ _ _ (Say _ _) => eapply sound_say; [reflexivity|]
  | |- Sound _ _ _ (Do _ _) =>
      eapply sound_do;
      [ intros ?; lazy - [seenInUse]; reflexivity
      | let r := fresh "r" in intros r; cbn in r; cbn ]
  | |- Sound _ _ _ (bindP (bindP _ _) _) => apply sound_assoc
  | |- Sound _ _ _ (bindP (onlyDirectories _ _) _) =>
      eapply sound_bindP;
      [ apply onlyDirectories_sound; intros; reflexivity
      | intros [?|?] ? ->; cbn ]
  | |- Sound _ _ _ (bindP (totalSize _ _ _) _) =>
      eapply sound_bindP;
      [ apply totalSize_sound; intros; reflexivity
      | intros [?|?] ? ->; cbn ]
  | |- Sound _ _ _ ?p =>
      match p with
      | context [if negb ?b then _ else _] => is_var b; destruct b; cbn
      | context [if ?b then _ else _] => is_var b; destruct b; cbn
      | context [if seenInUse ?c then _ else _] => destruct (seenInUse c); cbn
      | context [if isZero ?c then _ else _] => destruct (isZero c); cbn
      | context [match ?x with inl _ => _ | inr _ => _ end] =>
          is_var x; destruct x; cbn
      end
  end.

Ltac unfold_clean :=
  unfold cleanMain, cleanRegistry, cleanBody, cleanUp, try_catch, bind, ask,
    fs_readdirSync, fs_isDirectory, fs_rmSync, fs_unlinkSync, fs_mkdirSync,
    console_log, console_error, ret, throw, process_exit.

Lemma cleanMain_gated (args : list jsstring) :
  Sound gateStep (fun _ _ => True) Start (cleanMain args).
Proof.
  unfold_clean. destruct (negb (force args)); cbn; repeat obey.
Qed.

Lemma cleanMain_targets (args : list jsstring) :
  Sound targetStep (fun _ _ => True) tt (cleanMain args).
Proof.
  unfold_clean. destruct (negb (force args)); cbn; repeat obey.
Qed.

Lemma path_eqb_sym (p q : Path) : path_eqb p q = path_eqb q p.
Proof.
  revert q. induction p as [|a p IH]; intros [|b q]; simpl; try reflexivity.
  rewrite IH. f_equal.
  destruct (jsstring_eqb a b) eqn:E.
  - apply jsstring_eqb_eq in E. subst. symmetry. apply jsstring_eqb_eq. reflexivity.
  - destruct (jsstring_eqb b a) eqn:F; [|reflexivity].
    apply jsstring_eqb_eq in F. subst.
    assert (jsstring_eqb a a = true) by (apply jsstring_eqb_eq; reflexivity).
    congruence.
Qed.

Arguments path_eqb : simpl never.

Lemma after_Absent (tr : list Event) :
  after gateStep Absent tr <> None -> operations tr = [].
Proof.
  induction tr as [|[l|o r] tr IH]; simpl; [reflexivity | exact IH |].
  intros H. contradiction.
Qed.

Lemma after_InUse (tr : list Event) :
  after gateStep InUse tr <> None -> operations tr = [].
Proof.
  induction tr as [|[l|o r] tr IH]; simpl; [reflexivity | exact IH |].
  intros H. contradiction.
Qed.

Lemma after_Free (tr : list Event) :
  after gateStep Free tr <> None ->
  portChecks tr = [] /\ existence REGISTRY_DIR tr = [].
Proof.
  induction tr as [|[l|o r] tr IH]; simpl; [split; reflexivity | exact IH |].
  destruct o; simpl; try exact IH; try contradiction.
  rewrite (path_eqb_sym REGISTRY_DIR p).
  destruct (path_eqb p REGISTRY_DIR); [contradiction | exact IH].
Qed.

Lemma after_Unchecked (tr : list Event) :
  after gateStep Unchecked tr <> None ->
  existence REGISTRY_DIR tr = []
  /\ (Exists (fun c => seenInUse c = true) (portChecks tr) ->
      existsb changes (operations tr) = false).
Proof.
  induction tr as [|[l|o r] tr IH]; simpl.
  - intros _. split; [reflexivity | intros H; inversion H].
  - exact IH.
  - destruct o; simpl; try contradiction;
      try (intros H; destruct (IH H) as [H1 H2]; split; assumption).
    + (* existsSync *)
      rewrite (path_eqb_sym REGISTRY_DIR p).
      destruct (path_eqb p REGISTRY_DIR); [contradiction|]. exact IH.
    + (* netstat *)
      destruct (seenInUse r) eqn:E; intros H.
      * rewrite (after_InUse tr H). split; [|reflexivity].
        clear - H. induction tr as [|[l|o r'] tr IH]; simpl in *;
          [reflexivity | exact (IH H) | contradiction].
      * destruct (after_Free tr H) as [H1 H2]. rewrite H1. split; [exact H2|].
        intros Hex. inversion Hex as [? ? Hc|? ? Hc]; subst;
          [congruence | inversion Hc].
Qed.

Lemma after_Start (tr : list Event) :
  after gateStep Start tr <> None ->
  In false (existence REGISTRY_DIR tr)
  \/ Exists (fun c => seenInUse c = true) (portChecks tr) ->
  existsb changes (operations tr) = false.
Proof.
  induction tr as [|[l|o r] tr IH]; simpl.
  - intros _ [[]|H]. inversion H.
  - exact IH.
  - destruct o; simpl; try contradiction.
    rewrite (path_eqb_sym REGISTRY_DIR p).
    destruct (path_eqb p REGISTRY_DIR); [|contradiction].
    destruct r; intros H.
    + destruct (after_Unchecked tr H) as [H1 H2]. rewrite H1.
      intros [[Hf|[]]|Hex]; [discriminate Hf | exact (H2 Hex)].
    + intros _. rewrite (after_Absent tr H). reflexivity.
Qed.

(** The clean script changes nothing when the registry directory does not
    exist, and nothing when the port check shows port 3030 in use: no
    file or directory is removed or created and no process is started,
    with or without [--force]. *)
Theorem clean_is_gated
  (World : Type) (handle : Handler World) (w : World) (args : list jsstring) :
  let tr := trace handle (cleanMain args) w in
  In false (existence REGISTRY_DIR tr)
  \/ Exists (fun c => seenInUse c = true) (portChecks tr) ->
  existsb changes (operations tr) = false.
Proof.
  cbv zeta. apply after_Start.
  pose proof (cleanMain_gated args World handle w) as H.
  destruct (after gateStep Start (trace handle (cleanMain args) w));
    [discriminate | contradiction].
Qed.

(** Whatever the environment answers, the clean script removes only the
    components directory, the temporary directory, [node_modules] and the
    three log files, creates only the components directory, writes no
    file, and starts no process other than the [netstat] port check and
    [npm install] in the registry directory (never the setup script or
    the registry server): the registry directory itself, [config.json],
    [start-registry.js] and [package.json] are never removed. *)
Theorem clean_touches_only_its_targets
  (World : Type) (handle : Handler World) (w : World) (args : list jsstring) :
  Forall (fun o => cleanMayDo o = true)
    (operations (trace handle (cleanMain args) w)).
Proof.
  pose proof (cleanMain_targets args World handle w) as H.
  revert H. generalize (trace handle (cleanMain args) w) as tr.
  generalize (outcome handle (cleanMain args) w) as out.
  intros out tr. generalize tt as s.
  induction tr as [|[l|o r] tr IH]; intros s; simpl.
  - constructor.
  - apply IH.
  - destruct (cleanMayDo o) eqn:E; [|contradiction].
    intros H. constructor; [exact E | exact (IH tt H)].
Qed.

(** Without [--force] or [-f] among its arguments the clean script only
    prints its warning: it asks nothing of the file system, starts no
    process and returns. *)
Theorem clean_needs_force
  (World : Type) (handle : Handler World) (w : World) (args : list jsstring) :
  force args = false ->
  operations (trace handle (cleanMain args) w) = []
  /\ outcome handle (cleanMain args) w = Finished tt.
Proof.
  intros H. unfold cleanMain, trace, outcome. rewrite H. split; reflexivity.
Qed.

End CleanFacts.

(** ** The start script and the setup script *)

Section StartAndSetup.

Import Pipeline Registry.

Variable World : Type.
Variable handle : Handler World.

Ltac unfold_registry :=
  unfold outcome, trace, startOpenComponentsRegistry, startBody, setupMain,
    setupOpenComponentsRegistry, setupBody, try_catch, bind, ask,
    fs_readdirSync, fs_isDirectory, fs_rmSync, fs_unlinkSync, fs_mkdirSync,
    fs_writeFileSync, console_log, console_error, ret, throw, process_exit.

(** Take the next answer of the environment and the tests made on it. *)
Ltac reply :=
  match goal with
  | |- context [handle ?o ?w] =>
      let r := fresh "r" in
      let w' := fresh "w" in
      destruct (handle o w) as [r w']; cbn in r; cbn
  | |- context [if negb ?b then _ else _] => is_var b; destruct b; cbn
  | |- context [if ?b then _ else _] => is_var b; destruct b; cbn
  | |- context [match ?x with inl _ => _ | inr _ => _ end] =>
      is_var x; destruct x; cbn
  | |- context [match ?x with Some _ => _ | None => _ end] =>
      is_var x; destruct x; cbn
  | |- context [match ?x with Closed _ => _ | CheckError => _ end] =>
      is_var x; destruct x; cbn
  | |- context [match ?x with SpawnError _ => _ | ServerClosed _ => _
                            | ServerRuns => _ end] =>
      is_var x; destruct x; cbn
  | |- context [if isZero ?c then _ else _] => is_var c; destruct c; cbn
  | E : portInUse ?o = _ |- context [portInUse ?o] => rewrite E; cbn
  | |- context [portInUse ?o] =>
      let E := fresh "E" in destruct (portInUse o) eqn:E; cbn
  | E : Z.eqb ?z 0 = _ |- context [Z.eqb ?z 0] => rewrite E; cbn
  | |- context [Z.eqb ?z 0] =>
      let E := fresh "E" in destruct (Z.eqb z 0) eqn:E; cbn
  end.

(** Walk every path of a run: the run is named once, the answers are
    taken one by one, and at the end of a path the outcome and the trace
    are known. *)
Ltac walk :=
  cbv zeta; unfold outcome, trace;
  match goal with
  | |- context [run handle ?p ?w] =>
      let R := fresh "R" in
      let ER := fresh "ER" in
      remember (run handle p w) as R eqn:ER;
      destruct R as [[?out ?tr] ?w];
      cbn [fst snd];
      symmetry in ER; revert ER
  end;
  unfold_registry; cbn;
  repeat reply;
  let ER := fresh "ER" in
  intros ER; injection ER as <- <- <-; cbn;
  repeat match goal with
         | E : portInUse ?o = _ |- context [portInUse ?o] => rewrite E; cbn
         | E : Z.eqb ?z 0 = _ |- context [Z.eqb ?z 0] => rewrite E; cbn
         end.

Ltac find_in := solve [repeat (first [left; reflexivity | right])].


(** The registry server is not started unless [config.json] and
    [start-registry.js] exist in the registry directory: when one of them
    is missing the script prints the error, does not check the port and
    ends with exit code 1. *)
Theorem start_needs_configuration (win32 : bool) (w : World) :
  let p := startOpenComponentsRegistry win32 in
  In false (existence configPath (trace handle p w))
  \/ In false (existence startupScriptPath (trace handle p w)) ->
  existsb isNpmStart (operations (trace handle p w)) = false
  /\ portChecks (trace handle p w) = []
  /\ outcome handle p w = Exited 1
  /\ In {| stream := stderr; text := "Failed to start registry:";
           value := lit "Registry configuration or startup script not found" |}
        (said (trace handle p w)).
Proof.
  walk; intros H; lazy - [showCode] in H;
    first [ split; [reflexivity|]; split; [reflexivity|];
            split; [reflexivity|]; find_in
          | exfalso; intuition discriminate ].
Qed.

(** When the registry directory is missing the start script runs the
    setup script first; if that ends with a non-zero exit code (or by a
    signal) the start script prints [Setup failed with code <code>], looks
    no further and ends with exit code 1 without starting the server. *)
Theorem start_setup_failure (win32 : bool) (w : World) (code : option Z) :
  let p := startOpenComponentsRegistry win32 in
  setupCodes (trace handle p w) = [code] ->
  isZero code = false ->
  outcome handle p w = Exited 1
  /\ operations (trace handle p w) = [existsSync REGISTRY_DIR; setupScript]
  /\ In {| stream := stderr; text := "Failed to start registry:";
           value := lit "Setup failed with code " ++ showCode code |}
        (said (trace handle p w)).
Proof.
  walk; intros H Hz; cbn in H;
    first [ discriminate H
          | injection H as <-; cbn in Hz;
            first [ congruence
                  | split; [reflexivity|]; split; [reflexivity|]; find_in ] ].
Qed.

(** The start script never throws to its caller. It returns only when
    the port check has shown port 3030 in use, and then the registry
    process has not been spawned. Once that process is spawned the script
    lasts as long as it: it stays while the server runs, and ends with
    exit code 0 when the process closes, whatever its exit code; the
    [error] event of the process ends it with exit code 1, as does every
    failure before the process is spawned. *)
Theorem start_outcomes (win32 : bool) (w : World) :
  let p := startOpenComponentsRegistry win32 in
  match outcome handle p w with
  | Waiting => serverEnds (trace handle p w) = [ServerRuns]
  | Finished (inr _) =>
      Exists (fun c => seenInUse c = true) (portChecks (trace handle p w))
      /\ serverEnds (trace handle p w) = []
  | Finished (inl _) => False
  | Exited code =>
      (code = 0%Z /\ exists c, serverEnds (trace handle p w) = [ServerClosed c])
      \/ (code = 1%Z
          /\ (serverEnds (trace handle p w) = []
              \/ exists e, serverEnds (trace handle p w) = [SpawnError e]))
  end.
Proof.
  walk;
    first [ reflexivity
          | split; [constructor; cbn; assumption | reflexivity]
          | left; split; [reflexivity | eexists; reflexivity]
          | right; split; [reflexivity|];
            first [left; reflexivity | right; eexists; reflexivity] ].
Qed.

(** A registry process that ends by itself takes the start script with
    it: the exit code of the script is 0, even when the server has failed
    with code 1, which is only printed. *)
Example start_ends_with_the_server :
  let p := startOpenComponentsRegistry false in
  let h := scripted (fun o =>
             match o return Resp o with
             | npmStart _ _ => ServerClosed (Some 1%Z)
             | o' => RegistryScenarios.answers RegistryScenarios.everything
                       (Closed []) (Some 0%Z) o'
             end) in
  outcome h p tt = Exited 0
  /\ said (trace h p tt)
     = [ {| stream := stdout; text := "Starting OpenComponents registry...";
            value := [] |};
         {| stream := stdout; text := "Checking if port is available: ";
            value := lit "3030" |};
         {| stream := stdout; text := "Port is available: "; value := lit "3030" |};
         {| stream := stdout; text := "Starting registry server..."; value := [] |};
         {| stream := stderr; text := "Registry process exited with code ";
            value := lit "1" |} ].
Proof. split; vm_compute; reflexivity. Qed.

(** The setup script always ends the process, with exit code 0 or 1. It
    ends with 0 only when both runs of [npm] have come back with exit code
    0 and the registry configuration and the startup script have been
    written. *)
Theorem setup_exit_code (win32 : bool) (w : World) :
  let p := setupMain win32 in
  (outcome handle p w = Exited 0 \/ outcome handle p w = Exited 1)
  /\ (outcome handle p w = Exited 0 ->
      List.map isZero (npmCodes ["install"; "oc"]%string (trace handle p w)) = [true]
      /\ List.map isZero (npmCodes ["install"%string] (trace handle p w)) = [true]
      /\ existsb (writesTo configPath) (operations (trace handle p w)) = true
      /\ existsb (writesTo startupScriptPath) (operations (trace handle p w)) = true).
Proof.
  walk;
    (split; [first [left; reflexivity | right; reflexivity]|]);
    intros H; first [ discriminate H
                    | cbn; rewrite ?E, ?E0; repeat split; reflexivity ].
Qed.

(** An existing [package.json] of the registry is never overwritten by
    the setup script: when [existsSync] finds it, nothing is written to
    that path. *)
Theorem setup_keeps_package_json (win32 : bool) (w : World) :
  let p := setupMain win32 in
  In true (existence packagePath (trace handle p w)) ->
  existsb (writesTo packagePath) (operations (trace handle p w)) = false.
Proof.
  walk; intros H; lazy - [showCode] in H;
    first [ reflexivity | exfalso; intuition discriminate ].
Qed.

(** When the installation of the CLI ends with a non-zero exit code (or
    by a signal), the setup script writes no file, prints
    [Installation failed with code <code>] and ends with exit code 1. *)
Theorem setup_install_failure (win32 : bool) (w : World) (code : option Z) :
  let p := setupMain win32 in
  npmCodes ["install"; "oc"]%string (trace handle p w) = [code] ->
  isZero code = false ->
  existsb isWrite (operations (trace handle p w)) = false
  /\ npmCodes ["install"%string] (trace handle p w) = []
  /\ outcome handle p w = Exited 1
  /\ In {| stream := stderr; text := "Setup failed:";
           value := lit "Installation failed with code " ++ showCode code |}
        (said (trace handle p w)).
Proof.
  walk; intros H Hz; cbn in H;
    first [ discriminate H
          | injection H as <-; cbn in Hz;
            first [ congruence
                  | split; [reflexivity|]; split; [reflexivity|];
                    split; [reflexivity|]; find_in ] ].
Qed.

End StartAndSetup.

(** ** Runs of the registry scripts *)

Section RegistryWitnesses.

Import Pipeline Registry RegistryScenarios.

Lemma clean_needs_force_witness :
  operations (trace (scripted (answers everything (Closed quiet) (Some 0%Z)))
                (cleanMain [lit "--Force"; lit "components"]) tt) = [].
Proof.
  exact (proj1 (clean_needs_force unit
                  (scripted (answers everything (Closed quiet) (Some 0%Z))) tt
                  [lit "--Force"; lit "components"] eq_refl)).
Defined.

Lemma clean_is_gated_witness :
  existsb changes
    (operations (trace (scripted (answers everything (Closed listening) (Some 0%Z)))
                   (cleanMain [lit "--force"]) tt)) = false.
Proof.
  apply (clean_is_gated unit
           (scripted (answers everything (Closed listening) (Some 0%Z))) tt
           [lit "--force"]).
  right. vm_compute. constructor. reflexivity.
Defined.


Lemma start_needs_configuration_witness :
  outcome (scripted (answers bareDirectory (Closed quiet) (Some 0%Z)))
    (startOpenComponentsRegistry false) tt = Exited 1.
Proof.
  apply (start_needs_configuration unit
           (scripted (answers bareDirectory (Closed quiet) (Some 0%Z)))
           false tt).
  left. vm_compute. left. reflexivity.
Defined.

Lemma start_setup_failure_witness :
  operations (trace (scripted (answers nothing (Closed quiet) (Some 2%Z)))
                (startOpenComponentsRegistry false) tt)
  = [existsSync REGISTRY_DIR; setupScript].
Proof.
  apply (start_setup_failure unit
           (scripted (answers nothing (Closed quiet) (Some 2%Z)))
           false tt (Some 2%Z)); reflexivity.
Defined.

Lemma setup_exit_code_witness :
  outcome (scripted (answers nothing (Closed quiet) (Some 0%Z)))
    (setupMain false) tt = Exited 0
  /\ existsb (writesTo configPath)
       (operations (trace (scripted (answers nothing (Closed quiet) (Some 0%Z)))
                      (setupMain false) tt)) = true.
Proof.
  split; [vm_compute; reflexivity|].
  apply (proj2 (setup_exit_code unit
                  (scripted (answers nothing (Closed quiet) (Some 0%Z)))
                  false tt)).
  vm_compute. reflexivity.
Defined.

Lemma setup_keeps_package_json_witness :
  existsb (writesTo packagePath)
    (operations (trace (scripted (answers everything (Closed quiet) (Some 0%Z)))
                   (setupMain true) tt)) = false.
Proof.
  apply (setup_keeps_package_json unit
           (scripted (answers everything (Closed quiet) (Some 0%Z))) true tt).
  vm_compute. left. reflexivity.
Defined.

Lemma setup_install_failure_witness :
  existsb isWrite
    (operations (trace (scripted (answers everything (Closed quiet) (Some 1%Z)))
                   (setupMain false) tt)) = false.
Proof.
  apply (setup_install_failure unit
           (scripted (answers everything (Closed quiet) (Some 1%Z)))
           false tt (Some 1%Z)); reflexivity.
Defined.

(** In a registry where everything exists and the port is free, the clean
    script asks, removes and creates in this order. *)
Example clean_run :
  operations (trace (scripted (answers everything (Closed quiet) (Some 0%Z)))
                (cleanMain [lit "-f"]) tt)
  = [existsSync REGISTRY_DIR; existsSync COMPONENTS_DIR;
     readdirSync COMPONENTS_DIR;
     isDirectory (COMPONENTS_DIR ++ [lit "button"]);
     isDirectory (COMPONENTS_DIR ++ [lit "notes.txt"]);
     directorySize (COMPONENTS_DIR ++ [lit "button"]);
     netstat;
     existsSync COMPONENTS_DIR; rmSync COMPONENTS_DIR;
     existsSync tempDir; rmSync tempDir;
     existsSync (REGISTRY_DIR ++ [lit "registry.log"]);
     unlinkSync (REGISTRY_DIR ++ [lit "registry.log"]);
     existsSync (REGISTRY_DIR ++ [lit "npm-debug.log"]);
     unlinkSync (REGISTRY_DIR ++ [lit "npm-debug.log"]);
     existsSync (REGISTRY_DIR ++ [lit "error.log"]);
     unlinkSync (REGISTRY_DIR ++ [lit "error.log"]);
     mkdirSync COMPONENTS_DIR;
     existsSync nodeModules; rmSync nodeModules;
     npm "npm" ["install"%string] REGISTRY_DIR].
Proof. vm_compute. reflexivity. Qed.

End RegistryWitnesses.
